(** * C-Suite module generation and test utilities: a shallow embedding

  The development follows the Python sources

    - [tools/script/generate_module.py]   (descriptor generator)
    - [integration_tests/csuite_test_utils.py]  (harness, package
      repository and adb wrappers)

  Python text is modelled by [string]: a sequence of characters given by
  their code points, restricted to U+0000..U+00FF.  Dictionaries and
  directories are finite maps ([gmap]); a Python [set] is a [gset]. *)

From Stdlib Require Import ZArith Ascii String.
From stdpp Require Import gmap strings list fin_maps.

Set Warnings "-register-all".
Open Scope string_scope.

(** Let [simpl] compute the concatenation of string literals. *)
Arguments String.append !_ _ / : simpl nomatch.

(** ** Python [str] built-ins used by the sources *)

Module Py.

Definition chr (n : nat) : ascii := ascii_of_nat n.
Definition ord (c : ascii) : nat := nat_of_ascii c.

Definition LF : ascii := chr 10.
Definition CR : ascii := chr 13.
(** The double quote, built from its code. *)
Definition DQ : ascii := chr 34.
Definition dq : string := String DQ "".

(** [c.isspace()] on code points below 256: TAB..CR, FS..US, SPACE,
    NEL and NBSP. *)
Definition isspace (c : ascii) : bool :=
  let n := ord c in
  (((9 <=? n) && (n <=? 13)) || ((28 <=? n) && (n <=? 32))
   || (n =? 133) || (n =? 160))%nat.

(** [s.lstrip()] *)
Fixpoint lstrip (s : string) : string :=
  match s with
  | "" => ""
  | String c s' => if isspace c then lstrip s' else s
  end.

(** [s.rstrip()] *)
Fixpoint rstrip (s : string) : string :=
  match s with
  | "" => ""
  | String c s' =>
      match rstrip s' with
      | "" => if isspace c then "" else String c ""
      | r => String c r
      end
  end.

(** [s.strip()] *)
Definition strip (s : string) : string := rstrip (lstrip s).

(** [s.startswith(p)] *)
Fixpoint startswith (p s : string) : bool :=
  match p, s with
  | "", _ => true
  | String _ _, "" => false
  | String a p', String b s' => Ascii.eqb a b && startswith p' s'
  end.

(** [needle in s] *)
Fixpoint contains (needle s : string) : bool :=
  startswith needle s
  || match s with
     | "" => false
     | String _ s' => contains needle s'
     end.

(** [s[n:]] *)
Fixpoint drop (n : nat) (s : string) : string :=
  match n, s with
  | O, _ => s
  | S _, "" => ""
  | S n', String _ s' => drop n' s'
  end.

(** [f.readlines()] of a text stream whose remaining content is [s]:
    the lines, each keeping its terminating newline. *)
Fixpoint readlines (s : string) : list string :=
  match s with
  | "" => []
  | String c s' =>
      if Ascii.eqb c LF then String c "" :: readlines s'
      else match readlines s' with
           | [] => [String c ""]
           | l :: ls => String c l :: ls
           end
  end.

(** Line boundaries of [str.splitlines] (below U+0100). *)
Definition is_linebreak (c : ascii) : bool :=
  let n := ord c in
  (((10 <=? n) && (n <=? 13)) || ((28 <=? n) && (n <=? 30))
   || (n =? 133))%nat.

Fixpoint splitlines_go (after_cr : bool) (s : string) : list string :=
  match s with
  | "" => []
  | String c s' =>
      if after_cr && Ascii.eqb c LF then splitlines_go false s'
      else if is_linebreak c then "" :: splitlines_go (Ascii.eqb c CR) s'
      else match splitlines_go false s' with
           | [] => [String c ""]
           | l :: ls => String c l :: ls
           end
  end.

(** [s.splitlines()] *)
Definition splitlines (s : string) : list string := splitlines_go false s.

(** [s.split(sep)] for a one-character separator. *)
Fixpoint split (sep : ascii) (s : string) : list string :=
  match s with
  | "" => [""]
  | String c s' =>
      if Ascii.eqb c sep then "" :: split sep s'
      else match split sep s' with
           | [] => [String c ""]
           | f :: fs => String c f :: fs
           end
  end.

(** [s.replace(old, new)] for a non-empty [old]: occurrences are found
    left to right and do not overlap.  [skip] counts the characters of a
    matched occurrence still to be passed over. *)
Fixpoint replace_go (old new : string) (skip : nat) (s : string) : string :=
  match s with
  | "" => ""
  | String c s' =>
      match skip with
      | S k => replace_go old new k s'
      | O =>
          if startswith old s
          then new +:+ replace_go old new (String.length old - 1) s'
          else String c (replace_go old new 0 s')
      end
  end.

Definition replace (old new s : string) : string :=
  match old with
  | "" => s
  | _ => replace_go old new 0 s
  end.

(** [template.format] with keyword arguments [kw], for templates made of literal text, the
    escapes [{{] and [}}], and named fields [{name}].  [None] stands for
    the exception Python raises (a missing key, a single brace, or a
    field syntax not covered here). *)
Inductive fmt_state :=
| FLit
| FOpen
| FField (name : string)
| FClose.

Fixpoint kw_lookup (kw : list (string * string)) (k : string) : option string :=
  match kw with
  | [] => None
  | (k', v) :: kw' => if String.eqb k' k then Some v else kw_lookup kw' k
  end.

Definition field_char (c : ascii) : bool :=
  let n := ord c in
  (((48 <=? n) && (n <=? 57)) || ((65 <=? n) && (n <=? 90))
   || ((97 <=? n) && (n <=? 122)) || (n =? 95))%nat.

Fixpoint format_go (kw : list (string * string)) (st : fmt_state)
    (t : string) : option string :=
  match t with
  | "" => match st with FLit => Some "" | _ => None end
  | String c t' =>
      match st with
      | FLit =>
          if Ascii.eqb c "{" then format_go kw FOpen t'
          else if Ascii.eqb c "}" then format_go kw FClose t'
          else String c <$> format_go kw FLit t'
      | FOpen =>
          if Ascii.eqb c "{" then String c <$> format_go kw FLit t'
          else if field_char c then format_go kw (FField (String c "")) t'
          else None
      | FField name =>
          if Ascii.eqb c "}" then
            v ← kw_lookup kw name;
            String.append v <$> format_go kw FLit t'
          else if field_char c
               then format_go kw (FField (name +:+ String c "")) t'
               else None
      | FClose =>
          if Ascii.eqb c "}" then String c <$> format_go kw FLit t'
          else None
      end
  end.

Definition format (t : string) (kw : list (string * string)) : option string :=
  format_go kw FLit t.

End Py.

(** ** Exceptions, and a state monad in which they propagate

  A Python call either returns a value or raises; in both cases the
  effects it had on the mutable world so far are kept.  A computation
  over a world of type [W] is a function from the world before to an
  [outcome]. *)

Inductive exn :=
| FileExistsError
| FileNotFoundError
| IsADirectoryError
| NotADirectoryError
| DirectoryNotEmpty           (* OSError, ENOTEMPTY *)
| KeyError (key : string)
| IndexError
| ValueError
| RuntimeError
| ExpatError                  (* xml.parsers.expat.ExpatError *)
| CalledProcessError (returncode : Z) (cmd : list string) (output stderr : string)
| SpawnError                  (* the OSError of a process that could not be started *)
| PathOutsideModel.           (* a path that does not name an entry of the modelled directory *)

Inductive outcome (W A : Type) :=
| Return (a : A) (w : W)
| Raise (e : exn) (w : W).
Arguments Return {W A} a w.
Arguments Raise {W A} e w.

Definition M (W A : Type) : Type := W → outcome W A.

#[global] Instance M_ret {W} : MRet (M W) := λ A a w, Return a w.
#[global] Instance M_bind {W} : MBind (M W) := λ A B f m w,
match m w with
| Return a w' => f a w'
| Raise e w' => Raise e w'
end.

Definition raise {W A} (e : exn) : M W A := λ w, Raise e w.
Definition get_world {W} : M W W := λ w, Return w w.
Definition put_world {W} (w : W) : M W unit := λ _, Return () w.

(** [for x in xs: body x] *)
Fixpoint for_each {W A} (xs : list A) (body : A → M W unit) : M W unit :=
match xs with
| [] => mret ()
| x :: xs' => body x ≫= λ _, for_each xs' body
end.

(** ** The directory tree under [root_dir]

  Regular files and directories only (no links).  A [path] lists the
  components below the root directory, so [[d; f]] is
  [os.path.join(root_dir, d, f)]. *)

Inductive node :=
| File (content : string)
| Dir (entries : gmap string node).

Abbreviation dir := (gmap string node).
Abbreviation path := (list string).

Module Os.
Import Py.

Fixpoint walk (p : path) (n : node) : option node :=
  match p with
  | [] => Some n
  | c :: p' =>
      match n with
      | Dir m => m !! c ≫= walk p'
      | File _ => None
      end
  end.

(** The node a path names, if any. *)
Definition stat (p : path) (root : dir) : option node := walk p (Dir root).

(** Apply [f] to the entries of the directory at [p]. *)
Fixpoint in_dir (p : path) (f : dir → dir) (m : dir) : dir :=
  match p with
  | [] => f m
  | c :: p' =>
      match m !! c with
      | Some (Dir m') => <[c := Dir (in_dir p' f m')]> m
      | _ => m
      end
  end.

(** Parent directory and last component of a non-empty path. *)
Fixpoint split_last (p : path) : option (path * string) :=
  match p with
  | [] => None
  | [c] => Some ([], c)
  | c :: p' => (λ '(d, b), (c :: d, b)) <$> split_last p'
  end.

(** [os.path.isdir(p)] *)
Definition isdir (p : path) : M dir bool := λ root,
  Return (match stat p root with Some (Dir _) => true | _ => false end) root.

(** [os.path.lexists(p)] *)
Definition lexists (p : path) (root : dir) : bool :=
  bool_decide (is_Some (stat p root)).

(** [open(p, 'r').read()] *)
Definition read_text (p : path) : M dir string := λ root,
  match stat p root with
  | Some (File c) => Return c root
  | Some (Dir _) => Raise IsADirectoryError root
  | None => Raise FileNotFoundError root
  end.

(** [os.remove(p)] *)
Definition remove (p : path) : M dir unit := λ root,
  match stat p root, split_last p with
  | Some (File _), Some (d, b) => Return () (in_dir d (delete b) root)
  | Some (Dir _), _ => Raise IsADirectoryError root
  | _, _ => Raise FileNotFoundError root
  end.

(** [os.rmdir(p)] *)
Definition rmdir (p : path) : M dir unit := λ root,
  match stat p root, split_last p with
  | Some (Dir m), Some (d, b) =>
      if bool_decide (m = ∅) then Return () (in_dir d (delete b) root)
      else Raise DirectoryNotEmpty root
  | Some (File _), _ => Raise NotADirectoryError root
  | _, _ => Raise FileNotFoundError root
  end.

(** [os.mkdir(p)] *)
Definition mkdir (p : path) : M dir unit := λ root,
  match stat p root, split_last p with
  | Some _, _ => Raise FileExistsError root
  | None, Some (d, b) =>
      match stat d root with
      | Some (Dir _) => Return () (in_dir d (<[b := Dir ∅]>) root)
      | Some (File _) => Raise NotADirectoryError root
      | None => Raise FileNotFoundError root
      end
  | None, None => Raise FileExistsError root
  end.

(** [open(p, 'w')]: the file is created, or emptied when it exists. *)
Definition open_w (p : path) : M dir unit := λ root,
  match stat p root, split_last p with
  | Some (Dir _), _ => Raise IsADirectoryError root
  | _, Some (d, b) =>
      match stat d root with
      | Some (Dir _) => Return () (in_dir d (<[b := File ""]>) root)
      | Some (File _) => Raise NotADirectoryError root
      | None => Raise FileNotFoundError root
      end
  | _, None => Raise IsADirectoryError root
  end.

(** [f.write(text)] on the file opened at [p]: the text is appended. *)
Definition write (p : path) (text : string) : M dir unit := λ root,
  match stat p root, split_last p with
  | Some (File c), Some (d, b) =>
      Return () (in_dir d (<[b := File (c +:+ text)]>) root)
  | _, _ => Raise ValueError root
  end.

(** A name that [glob] treats as hidden. *)
Definition ishidden (name : string) : bool := startswith "." name.

(** A package name, or any other string joined to [root_dir], names an
    entry of [root_dir] when it is a single path component. *)
Definition is_component (name : string) : bool :=
  negb (String.eqb name "") && negb (String.eqb name ".")
  && negb (String.eqb name "..") && negb (contains "/" name)
  && negb (contains (String (chr 0) "") name).

End Os.

(** ** [generate_module.py]: constants and templates *)

Module GenerateModule.
Import Py.

Definition _AUTO_GENERATE_NOTE : string :=
  "THIS FILE WAS AUTO-GENERATED. DO NOT EDIT MANUALLY!".
Definition _ANDROID_BP_FILE_NAME : string := "Android.bp".
Definition _ANDROID_XML_FILE_NAME : string := "AndroidTest.xml".

Definition _CSUITE_LAUNCH_TEST_CLASS : string :=
  "com.android.compatibility.testtype.AppLaunchTest".

(** A dictionary literal of attributes, in insertion order. *)
Abbreviation attrib := (list (string * string)).

Definition _MODULE_PREPARERS : list (string * list attrib) :=
  [ ("com.android.tradefed.targetprep.TestAppInstallSetup",
     [ [("name", "test-file-name");
        ("value", "csuite-launch-instrumentation.apk")] ]);
    ("com.android.compatibility.targetprep.AppSetupPreparer", []);
    ("com.android.tradefed.targetprep.RunCommandTargetPreparer",
     [ [("name", "run-command"); ("value", "input keyevent KEYCODE_WAKEUP")];
       [("name", "run-command"); ("value", "input keyevent KEYCODE_MENU")];
       [("name", "run-command"); ("value", "input keyevent KEYCODE_HOME")] ])
  ].

Definition _CONFIG_TYPE_TARGET_PREPARER : string := "target_preparer".
Definition _CONFIG_TYPE_TEST : string := "test".

(** The text of the Apache licence notice shared by both headers, one
    line per entry, without the comment leader. *)
Definition license_lines : list string :=
  [ "Licensed under the Apache License, Version 2.0 (the " +:+ dq +:+ "License" +:+ dq +:+ ");";
    "you may not use this file except in compliance with the License.";
    "You may obtain a copy of the License at";
    "";
    "     http://www.apache.org/licenses/LICENSE-2.0";
    "";
    "Unless required by applicable law or agreed to in writing, software";
    "distributed under the License is distributed on an " +:+ dq +:+ "AS IS" +:+ dq +:+ " BASIS,";
    "WITHOUT WARRANTIES OR CONDITIONS OF ANY KIND, either express or implied.";
    "See the License for the specific language governing permissions and";
    "limitations under the License." ].

Definition copyright_line : string :=
  "Copyright (C) 2019 The Android Open Source Project".

(** The literal of [_BUILD_MODULE_HEADER] before [.format]. *)
Definition build_header_template : string :=
  "// " +:+ copyright_line +:+ "
//
" +:+ String.concat "" (map (fun l => match l with
                                    | "" => "//
"
                                    | _ => "// " +:+ l +:+ "
"
                                    end) license_lines) +:+ "
// {auto_generate_note}

".

(** Module-level [str.format] calls raise at import time when they fail;
    the templates below are constants on which they succeed. *)
Definition format_const (t : string) (kw : list (string * string)) : string :=
  default "" (format t kw).

Definition _BUILD_MODULE_HEADER : string :=
  format_const build_header_template
    [("auto_generate_note", _AUTO_GENERATE_NOTE)].

Definition _BUILD_MODULE_TEMPLATE : string :=
  "csuite_config {{
    name: " +:+ dq +:+ "csuite_{package_name}" +:+ dq +:+ ",
}}
".

(** The literal of [_TEST_MODULE_HEADER] before [.format]. *)
Definition test_header_template : string :=
  "<?xml version=" +:+ dq +:+ "1.0" +:+ dq +:+ " encoding=" +:+ dq +:+ "utf-8" +:+ dq +:+ "?>
<!-- " +:+ copyright_line +:+ "

" +:+ String.concat "" (map (fun l => match l with
                                    | "" => "
"
                                    | _ => "     " +:+ l +:+ "
"
                                    end) license_lines) +:+ "-->
<!-- {auto_generate_note}-->

".

Definition _TEST_MODULE_HEADER : string :=
  format_const test_header_template
    [("auto_generate_note", _AUTO_GENERATE_NOTE)].

End GenerateModule.

(** ** The XML libraries the generator calls

  [xml.etree.ElementTree], [xml.dom.minidom] and [xml.sax.saxutils] are
  library code; they are modelled by their effect on an element tree
  whose elements carry attributes and children and no text, which is all
  the generator builds. *)

Module Xml.
Import Py.

(** An [ET.Element]: tag, attributes in insertion order, children. *)
Inductive element :=
| Element (tag : string) (attrib : list (string * string))
          (children : list element).

Definition append_child (parent child : element) : element :=
  match parent with
  | Element tag attrib children => Element tag attrib (children ++ [child])%list
  end.

(** [ET.SubElement(parent, tag, attrib)], as the parent it leaves. *)
Definition SubElement (parent : element) (tag : string)
    (attrib : list (string * string)) : element :=
  append_child parent (Element tag attrib []).

(** A character XML 1.0 allows in a document. *)
Definition xml_char (c : ascii) : bool :=
  let n := ord c in
  ((n =? 9) || (n =? 10) || (n =? 13) || (32 <=? n))%nat.

Fixpoint all_chars (P : ascii → bool) (s : string) : bool :=
  match s with
  | "" => true
  | String c s' => P c && all_chars P s'
  end.

Fixpoint values_ok (e : element) : bool :=
  match e with
  | Element _ attrib children =>
      forallb (λ kv, all_chars xml_char kv.2) attrib
      && forallb values_ok children
  end.

(** [minidom.parseString(ET.tostring(elem, 'utf-8'))]: the serialiser
    escapes markup characters and the parser resolves them again, so the
    document node holds the same tree; the parser rejects the text with
    an [ExpatError] when an attribute value holds a character that XML
    does not allow. *)
Definition parse_tostring (e : element) : option element :=
  if values_ok e then Some e else None.

(** [minidom._write_data] *)
Definition _write_data (data : string) : string :=
  replace ">" "&gt;"
    (replace dq "&quot;"
       (replace "<" "&lt;"
          (replace "&" "&amp;" data))).

Fixpoint write_attrs (attrib : list (string * string)) : string :=
  match attrib with
  | [] => ""
  | (a_name, value) :: rest =>
      " " +:+ a_name +:+ "=" +:+ dq +:+ _write_data value +:+ dq
      +:+ write_attrs rest
  end.

(** [Element.writexml(writer, indent, addindent, newl)], as the text it
    writes. *)
Fixpoint writexml (indent addindent newl : string) (e : element) : string :=
  match e with
  | Element tag attrib children =>
      indent +:+ "<" +:+ tag +:+ write_attrs attrib +:+
      match children with
      | [] => "/>" +:+ newl
      | _ :: _ =>
          ">" +:+ newl +:+
          (fix write_children (cs : list element) : string :=
             match cs with
             | [] => ""
             | c :: cs' =>
                 writexml (indent +:+ addindent) addindent newl c
                 +:+ write_children cs'
             end) children
          +:+ indent +:+ "</" +:+ tag +:+ ">" +:+ newl
      end
  end.

(** [minidom.Document().toxml()] *)
Definition declaration : string :=
  "<?xml version=" +:+ dq +:+ "1.0" +:+ dq +:+ " ?>".

(** [document.toprettyxml(indent)] of the document whose root is [e]
    (the line separator is its default, a newline). *)
Definition toprettyxml (indent : string) (e : element) : string :=
  declaration +:+ String LF "" +:+ writexml "" indent (String LF "") e.

(** [saxutils.unescape(data)] *)
Definition unescape (data : string) : string :=
  replace "&amp;" "&" (replace "&gt;" ">" (replace "&lt;" "<" data)).

End Xml.

(** ** [generate_module.py]: the functions *)

Module Generator.
Import Py Os Xml GenerateModule.

(** [write_build_module(package_name, out_file)]; the stream is given by
    its [write] method. *)
Definition write_build_module {W} (package_name : string)
    (out_file : string → M W unit) : M W unit :=
  match format _BUILD_MODULE_TEMPLATE [("package_name", package_name)] with
  | Some body => out_file (_BUILD_MODULE_HEADER +:+ body)
  | None => raise ValueError
  end.

(** In Python the new element is attached to [elem] first and receives
    its options afterwards, through the shared reference. *)
Definition _add_element_with_option (elem : element) (sub_elem class_name : string)
    (options : list attrib) : element :=
  let new_elem := Element sub_elem [("class", class_name)] [] in
  append_child elem
    (fold_left (λ new_elem option, SubElement new_elem "option" option)
               options new_elem).

Definition _prettify (elem : element) : option string :=
  match parse_tostring elem with
  | Some parsed =>
      Some (unescape
              (drop (String.length declaration + 1)
                    (toprettyxml "    " parsed)))
  | None => None
  end.

(** The element tree [write_test_module] builds. *)
Definition configuration (package_name : string) : element :=
  let configuration :=
    Element "configuration"
            [("description", "Tests the compatibility of apps")] [] in
  let configuration :=
    SubElement configuration "option"
      [("name", "config-descriptor:metadata"); ("key", "plan");
       ("value", "app-launch")] in
  let configuration :=
    SubElement configuration "option"
      [("name", "package-name"); ("value", package_name)] in
  let configuration :=
    fold_left (λ configuration '(preparer, options),
                 _add_element_with_option configuration
                   _CONFIG_TYPE_TARGET_PREPARER preparer options)
              _MODULE_PREPARERS configuration in
  _add_element_with_option configuration _CONFIG_TYPE_TEST
                           _CSUITE_LAUNCH_TEST_CLASS [].

(** [write_test_module(package_name, out_file)] *)
Definition write_test_module {W} (package_name : string)
    (out_file : string → M W unit) : M W unit :=
  match _prettify (configuration package_name) with
  | Some pretty => out_file (_TEST_MODULE_HEADER +:+ pretty)
  | None => raise ExpatError
  end.

(** An [io.StringIO]: the world is the text written so far. *)
Definition stringio_write (text : string) : M string unit :=
  λ buf, Return () (buf +:+ text).

(** [_is_auto_generated(filename)] *)
Definition _is_auto_generated (filename : path) : M dir bool :=
  text ← read_text filename;
  mret (contains _AUTO_GENERATE_NOTE text).

(** [os.path.join(root_dir, name)] followed by nothing else: the path
    below the root that the joined name denotes. *)
Definition join_root {W} (name : string) : M W path :=
  if is_component name then mret [name]
  else if String.eqb name "" || String.eqb name "." then mret []
  else raise PathOutsideModel.

(** [_create_package_dir(root_dir, package_name)] *)
Definition _create_package_dir (package_name : string) : M dir path :=
  package_dir_path ← join_root package_name;
  _ ← mkdir package_dir_path;
  mret package_dir_path.

(** [_generate_module_files(package_name, root_dir)] *)
Definition _generate_module_files (package_name : string) : M dir unit :=
  package_dir ← _create_package_dir package_name;
  let build_module_path := (package_dir ++ [_ANDROID_BP_FILE_NAME])%list in
  let test_module_path := (package_dir ++ [_ANDROID_XML_FILE_NAME])%list in
  _ ← open_w build_module_path;
  _ ← write_build_module package_name (write build_module_path);
  _ ← open_w test_module_path;
  write_test_module package_name (write test_module_path).

Section Enumeration.
(** The order in which Python iterates over a set of strings, and the
    order in which the operating system lists the names in a
    directory: neither is specified. *)
Variable set_iter : gset string → list string.
Variable scandir : dir → list string.

(** [os.listdir(p)] *)
Definition listdir (p : path) : M dir (list string) := λ root,
  match stat p root with
  | Some (Dir m) => Return (scandir m) root
  | Some (File _) => Raise NotADirectoryError root
  | None => Raise FileNotFoundError root
  end.

(** [glob.iglob] of [root_dir], a double star, and the literal name
    [fname], joined by separators.  The call passes no
    [recursive=True], so the double star matches like a single star:
    exactly one component, not starting with a dot.  The candidates
    are the directories listed in [root_dir]; each match is one whose
    entry [fname] exists. *)
Definition iglob_star_star (fname : string) : M dir (list path) := λ root,
  Return
    (omap (λ d, match root !! d with
                | Some (Dir m) =>
                    if negb (ishidden d) && bool_decide (is_Some (m !! fname))
                    then Some [d; fname] else None
                | _ => None
                end)
          (scandir root))
    root.

(** [_remove_empty_dirs(path)] *)
Definition _remove_empty_dirs (p : path) : M dir unit :=
  names ← listdir p;
  for_each names (λ filename,
    let file_path := (p ++ [filename])%list in
    is_dir ← isdir file_path;
    if (is_dir : bool) then
      inner ← listdir file_path;
      match inner with
      | [] => rmdir file_path
      | _ :: _ => mret ()
      end
    else mret ()).

Definition remove_auto_generated (fname : string) : M dir unit :=
  filenames ← iglob_star_star fname;
  for_each filenames (λ filename,
    auto ← _is_auto_generated filename;
    if (auto : bool) then remove filename else mret ()).

(** [remove_existing_package_files(root_dir)] *)
Definition remove_existing_package_files : M dir unit :=
  _ ← remove_auto_generated _ANDROID_XML_FILE_NAME;
  _ ← remove_auto_generated _ANDROID_BP_FILE_NAME;
  _remove_empty_dirs [].

(** [parse_package_list(package_list_file)], for a text stream with
    content [text]; the generator's yields, in order. *)
Definition parse_package_list (text : string) : list string :=
  let packages : gset string := list_to_set (strip <$> readlines text) in
  List.filter (λ package,
                 negb (String.eqb package "") && negb (startswith "#" package))
              (set_iter packages).

(** [generate_all_modules_from_config(package_list_file_path, root_dir)],
    where the package list file has content [text] and lies outside the
    descriptors that the clean-up removes. *)
Definition generate_all_modules_from_config (text : string) : M dir unit :=
  _ ← remove_existing_package_files;
  for_each (parse_package_list text) (λ line,
    _generate_module_files (strip line)).

End Enumeration.

End Generator.

(** ** [csuite_test_utils.py] *)

Module TestUtils.
Import Py Os.

(** *** [PackageRepository] *)

Section Repository.
(** The files of the host that artifact paths name; a source path lists
    its components from the file-system root.  The repository's own
    temporary directory is its world, and holds no source. *)
Variable host : dir.

(** [shutil.copy(src, dst)] for a directory [dst] of the repository. *)
Definition shutil_copy (src : path) (dst : path) : M dir unit :=
  match stat src host, split_last src with
  | Some (File content), Some (_, basename) =>
      let target := (dst ++ [basename])%list in
      _ ← open_w target;
      write target content
  | Some (File _), None => raise IsADirectoryError
  | Some (Dir _), _ => raise IsADirectoryError
  | None, _ => raise FileNotFoundError
  end.

(** [PackageRepository.add_package_apks(package_name, apk_paths)] *)
Definition add_package_apks (package_name : string)
    (apk_paths : list path) : M dir unit :=
  apk_dir ← Generator.join_root package_name;
  (* Raises if the directory already exists. *)
  _ ← mkdir apk_dir;
  for_each apk_paths (λ f, shutil_copy f apk_dir).
End Repository.

(** *** Processes *)

Abbreviation environment := (gmap string string).

Record CompletedProcess := {
  args : list string;
  returncode : Z;
  stdout : string;
  stderr : string
}.

Section Processes.
(** Everything outside the test process that a command can read or
    change (the device, the host's files). *)
Context {X : Type}.

(** Running a command to completion with an environment: its exit
    code, standard output and standard error, or [None] when it cannot
    be started; and what it leaves of the outside. *)
Variable execute :
  list string → environment → X → option (Z * string * string) * X.

Record world := {
  environ : environment;           (* os.environ *)
  _DEVICE_SERIAL : option string;  (* the module's global *)
  outside : X;
  started : list (list string * environment)  (* commands run so far *)
}.

(** [subprocess.run(argv, capture_output=True, universal_newlines=True,
    env=env, check=check)]; without [env] the child inherits
    [os.environ]. *)
Definition subprocess_run (argv : list string) (env : option environment)
    (check : bool) : M world CompletedProcess := λ w,
  let child_env := default (environ w) env in
  let '(result, outside') := execute argv child_env (outside w) in
  let w' := {| environ := environ w;
               _DEVICE_SERIAL := _DEVICE_SERIAL w;
               outside := outside';
               started := (started w ++ [(argv, child_env)])%list |} in
  match result with
  | None => Raise SpawnError w'
  | Some (rc, out, err) =>
      if check && negb (rc =? 0)%Z
      then Raise (CalledProcessError rc argv out err) w'
      else Return {| args := argv; returncode := rc;
                     stdout := out; stderr := err |} w'
  end.

(** [get_device_serial()] *)
Definition get_device_serial : M world string := λ w,
  match _DEVICE_SERIAL w with
  | None | Some "" => Raise RuntimeError w
  | Some serial => Return serial w
  end.

(** *** [Adb] *)

Record Adb := { _args : list string }.

(** [Adb(adb_binary_path, device_serial)]; an argument left out is
    [None]. *)
Definition Adb_init (adb_binary_path device_serial : option string)
    : M world Adb :=
  let binary := match adb_binary_path with
                | None | Some "" => "adb"
                | Some b => b
                end in
  device_serial ← match device_serial with
                  | None | Some "" => get_device_serial
                  | Some serial => mret serial
                  end;
  mret {| _args := match device_serial with
                   | "" => [binary]
                   | _ => [binary; "-s"; device_serial]
                   end |}.

(** [Adb.run(args, check)] *)
Definition Adb_run (self : Adb) (args : list string) (check : option bool)
    : M world CompletedProcess :=
  let check := match check with
               | None => true
               | Some check => check
               end in
  subprocess_run (_args self ++ args)%list None check.

(** [Adb.shell(args, check)] *)
Definition Adb_shell (self : Adb) (args : list string) (check : option bool)
    : M world CompletedProcess :=
  Adb_run self ("shell" :: args) check.

(** [Adb.uninstall(package_name, check)] *)
Definition Adb_uninstall (self : Adb) (package_name : string)
    (check : option bool) : M world unit :=
  _ ← Adb_run self ["uninstall"; package_name] check;
  mret ().

(** [l.split(':')[1]] for each line in turn; [None] is the
    [IndexError] of the first line on which the index is out of
    range. *)
Definition second_fields (lines : list string) : option (list string) :=
  mapM (λ l, split ":" l !! 1%nat) lines.

(** [Adb.list_packages()] *)
Definition Adb_list_packages (self : Adb) : M world (list string) :=
  p ← Adb_shell self ["pm"; "list"; "packages"] None;
  match second_fields (splitlines (stdout p)) with
  | Some packages => mret packages
  | None => raise IndexError
  end.

(** *** [CSuiteHarness] *)

Record CSuiteHarness := {
  _launcher_binary : string;
  _generate_module_binary : string;
  _testcases_dir : string
}.

(** [del env[key]] *)
Definition del_item (key : string) (env : environment)
    : M world environment :=
  match env !! key with
  | Some _ => mret (delete key env)
  | None => raise (KeyError key)
  end.

(** [CSuiteHarness.run_and_wait(flags)] *)
Definition run_and_wait (self : CSuiteHarness) (flags : list string)
    : M world CompletedProcess :=
  w ← get_world;
  let env := environ w in
  (* Clear environment variables that would cause the script to think
     it's in a build tree. *)
  env ← del_item "ANDROID_BUILD_TOP" env;
  env ← del_item "ANDROID_HOST_OUT" env;
  (* Clear environment variables that would cause TradeFed to find test
     configs other than the ones created by the test. *)
  env ← del_item "ANDROID_HOST_OUT_TESTCASES" env;
  env ← del_item "ANDROID_TARGET_OUT_TESTCASES" env;
  (* Clear environment variables that might cause the suite to pick up a
     connected device that wasn't explicitly specified. *)
  env ← del_item "ANDROID_SERIAL" env;
  (* Set the environment variable that TradeFed requires to find test
     modules. *)
  let env := <["ANDROID_TARGET_OUT_TESTCASES" := _testcases_dir self]> env in
  subprocess_run (_launcher_binary self :: flags) (Some env) false.

End Processes.

Arguments world X : clear implicits.

End TestUtils.

(** ** Well-trimmed text, stated without reference to [strip] *)

Module TextSpec.
Import Py.

(** The character [c] occurs in [s]. *)
Fixpoint has_char (c : ascii) (s : string) : bool :=
  match s with
  | "" => false
  | String x s' => Ascii.eqb x c || has_char c s'
  end.

Fixpoint all_space (s : string) : bool :=
  match s with
  | "" => true
  | String c s' => isspace c && all_space s'
  end.

Definition first_char (s : string) : option ascii :=
  match s with
  | "" => None
  | String c _ => Some c
  end.

Fixpoint last_char (s : string) : option ascii :=
  match s with
  | "" => None
  | String c "" => Some c
  | String _ s' => last_char s'
  end.

Definition edge_is_space (o : option ascii) : bool :=
  match o with
  | Some c => isspace c
  | None => false
  end.

(** [p] is [line] without its leading and trailing whitespace. *)
Definition trimmed_of (line p : string) : Prop :=
  ∃ a b, line = a +:+ p +:+ b
         ∧ all_space a = true ∧ all_space b = true
         ∧ edge_is_space (first_char p) = false
         ∧ edge_is_space (last_char p) = false.

(** The fragments occur in [s] one after the other, without overlap. *)
Fixpoint in_order (fragments : list string) (s : string) : Prop :=
  match fragments with
  | [] => True
  | f :: fs => ∃ a b, s = a +:+ f +:+ b ∧ in_order fs b
  end.

(** The text after the first occurrence of [f] in [s]. *)
Fixpoint find_after (f s : string) : option string :=
  if startswith f s then Some (drop (String.length f) s)
  else match s with
       | "" => None
       | String _ s' => find_after f s'
       end.

(** A decision procedure for [in_order]: leftmost matches. *)
Fixpoint in_orderb (fragments : list string) (s : string) : bool :=
  match fragments with
  | [] => true
  | f :: fs =>
      match find_after f s with
      | Some b => in_orderb fs b
      | None => false
      end
  end.

End TextSpec.

(** ** Well-formed XML, as a recogniser

    A character-level recogniser for the fragment of XML 1.0 without
    document type declarations, CDATA sections and processing
    instructions: an optional XML declaration, comments, elements with
    attributes, character data, and references to the predefined entities
    and to characters. *)

Module XmlSpec.
Import Py Xml.

Definition is_ws (c : ascii) : bool :=
  let n := ord c in ((n =? 32) || (n =? 9) || (n =? 10) || (n =? 13))%nat.

Definition is_digit (c : ascii) : bool :=
  let n := ord c in ((48 <=? n) && (n <=? 57))%nat.

Definition is_hex (c : ascii) : bool :=
  let n := ord c in
  (((48 <=? n) && (n <=? 57)) || ((65 <=? n) && (n <=? 70))
   || ((97 <=? n) && (n <=? 102)))%nat.

(** NameStartChar and NameChar, below U+0100. *)
Definition name_start (c : ascii) : bool :=
  let n := ord c in
  (((65 <=? n) && (n <=? 90)) || ((97 <=? n) && (n <=? 122))
   || (n =? 95) || (n =? 58)
   || ((192 <=? n) && negb (n =? 215) && negb (n =? 247)))%nat.

Definition name_char (c : ascii) : bool :=
  let n := ord c in
  (name_start c || is_digit c || (n =? 45) || (n =? 46) || (n =? 183))%nat.

Definition hex_value (c : ascii) : N :=
  let n := N_of_ascii c in
  (if n <=? 57 then n - 48 else if n <=? 70 then n - 55 else n - 87)%N.

Fixpoint number (base : N) (acc : N) (s : string) : N :=
  match s with
  | "" => acc
  | String c s' => number base (acc * base + hex_value c)%N s'
  end.

(** A code point that XML allows a character reference to denote. *)
Definition legal_code (n : N) : bool :=
  ((n =? 9) || (n =? 10) || (n =? 13)
   || ((32 <=? n) && (n <=? 55295))
   || ((57344 <=? n) && (n <=? 65533))
   || ((65536 <=? n) && (n <=? 1114111)))%N.

(** The text between the ampersand and the semicolon of a reference. *)
Definition reference_ok (body : string) : bool :=
  match body with
  | String "#" (String "x" digits) =>
      negb (String.eqb digits "") && all_chars is_hex digits
      && (String.length digits <=? 6)%nat && legal_code (number 16 0 digits)
  | String "#" digits =>
      negb (String.eqb digits "") && all_chars is_digit digits
      && (String.length digits <=? 7)%nat && legal_code (number 10 0 digits)
  | _ =>
      existsb (String.eqb body) ["lt"; "gt"; "amp"; "quot"; "apos"]
  end.

Inductive tag_kind := StartTag | Declaration.

(** The tag being read: its kind, its name, the attribute names seen. *)
Inductive tag := Tag (kind : tag_kind) (name : string) (attrs : list string).

Definition add_attr (t : tag) (a : string) : option tag :=
  match t with
  | Tag k n attrs =>
      if existsb (String.eqb a) attrs then None
      else Some (Tag k n (attrs ++ [a])%list)
  end.

(** The pseudo-attributes an XML declaration may carry, in order. *)
Definition declaration_attrs_ok (attrs : list string) : bool :=
  existsb (λ l, bool_decide (attrs = l))
    [ ["version"]; ["version"; "encoding"]; ["version"; "standalone"];
      ["version"; "encoding"; "standalone"] ].

Inductive mode :=
| Begin
| LtFirst
| Content (brackets : nat)
| Lt
| Bang
| BangDash
| Comment
| CommentDash
| CommentDashDash
| DeclTarget (buf : string)
| OpenName (buf : string)
| CloseName (buf : string)
| CloseSpace (name : string)
| InTag (t : tag) (need_space : bool)
| AttrName (t : tag) (buf : string)
| AttrEq (t : tag)
| AttrQuote (t : tag)
| AttrValue (t : tag) (quote : ascii)
| AttrRef (t : tag) (quote : ascii) (buf : string)
| ContentRef (buf : string)
| EmptyGt
| DeclGt.

(** The recogniser's state: what it is reading, the names of the elements
    that are open (innermost first), and whether the root element is
    closed. *)
Inductive state := St (m : mode) (stack : list string) (root_done : bool).

Definition snoc (buf : string) (c : ascii) : string := buf +:+ String c "".

Definition close (name : string) (stack : list string) : option state :=
  match stack with
  | top :: rest =>
      if String.eqb top name
      then Some (St (Content 0) rest (bool_decide (rest = [])))
      else None
  | [] => None
  end.

Definition step (st : state) (c : ascii) : option state :=
  match st with
  | St m stack root_done =>
      let go m' := Some (St m' stack root_done) in
      if negb (xml_char c) then None else
      match m with
      | Begin | Content _ =>
          if Ascii.eqb c "<"
          then go (match m with Begin => LtFirst | _ => Lt end)
          else match stack with
               | [] => if is_ws c then go (Content 0) else None
               | _ :: _ =>
                   if Ascii.eqb c "&" then go (ContentRef "")
                   else if Ascii.eqb c "]"
                   then go (Content (match m with
                                     | Content (S _) => 2
                                     | _ => 1
                                     end))
                   else if Ascii.eqb c ">"
                   then match m with
                        | Content (S (S _)) => None
                        | _ => go (Content 0)
                        end
                   else go (Content 0)
               end
      | LtFirst | Lt =>
          if Ascii.eqb c "?"
          then match m with LtFirst => go (DeclTarget "") | _ => None end
          else if Ascii.eqb c "!" then go Bang
          else if Ascii.eqb c "/" then go (CloseName "")
          else if name_start c
          then if root_done then None else go (OpenName (String c ""))
          else None
      | Bang => if Ascii.eqb c "-" then go BangDash else None
      | BangDash => if Ascii.eqb c "-" then go Comment else None
      | Comment => if Ascii.eqb c "-" then go CommentDash else go Comment
      | CommentDash =>
          if Ascii.eqb c "-" then go CommentDashDash else go Comment
      | CommentDashDash => if Ascii.eqb c ">" then go (Content 0) else None
      | DeclTarget buf =>
          if name_char c then go (DeclTarget (snoc buf c))
          else if is_ws c && String.eqb buf "xml"
          then go (InTag (Tag Declaration buf []) false)
          else None
      | OpenName buf =>
          if name_char c then go (OpenName (snoc buf c))
          else if is_ws c then go (InTag (Tag StartTag buf []) false)
          else if Ascii.eqb c ">" then Some (St (Content 0) (buf :: stack) root_done)
          else if Ascii.eqb c "/" then Some (St EmptyGt (buf :: stack) root_done)
          else None
      | CloseName buf =>
          if (match buf with "" => name_start c | _ => name_char c end)
          then go (CloseName (snoc buf c))
          else if String.eqb buf "" then None
          else if is_ws c then go (CloseSpace buf)
          else if Ascii.eqb c ">" then close buf stack
          else None
      | CloseSpace name =>
          if is_ws c then go (CloseSpace name)
          else if Ascii.eqb c ">" then close name stack
          else None
      | InTag (Tag kind name attrs as t) need_space =>
          if is_ws c then go (InTag t false)
          else match kind with
               | StartTag =>
                   if Ascii.eqb c ">"
                   then Some (St (Content 0) (name :: stack) root_done)
                   else if Ascii.eqb c "/"
                   then Some (St EmptyGt (name :: stack) root_done)
                   else if name_start c && negb need_space
                   then go (AttrName t (String c ""))
                   else None
               | Declaration =>
                   if Ascii.eqb c "?"
                   then if declaration_attrs_ok attrs then go DeclGt else None
                   else if name_start c && negb need_space
                   then go (AttrName t (String c ""))
                   else None
               end
      | AttrName t buf =>
          if name_char c then go (AttrName t (snoc buf c))
          else if Ascii.eqb c "=" then (λ t', St (AttrQuote t') stack root_done) <$> add_attr t buf
          else if is_ws c then (λ t', St (AttrEq t') stack root_done) <$> add_attr t buf
          else None
      | AttrEq t =>
          if is_ws c then go (AttrEq t)
          else if Ascii.eqb c "=" then go (AttrQuote t)
          else None
      | AttrQuote t =>
          if is_ws c then go (AttrQuote t)
          else if Ascii.eqb c DQ || Ascii.eqb c "'" then go (AttrValue t c)
          else None
      | AttrValue t quote =>
          if Ascii.eqb c quote then go (InTag t true)
          else if Ascii.eqb c "<" then None
          else if Ascii.eqb c "&"
          then match t with
               | Tag StartTag _ _ => go (AttrRef t quote "")
               | Tag Declaration _ _ => None
               end
          else go (AttrValue t quote)
      | AttrRef t quote buf =>
          if Ascii.eqb c ";"
          then if reference_ok buf then go (AttrValue t quote) else None
          else if name_char c || Ascii.eqb c "#" then go (AttrRef t quote (snoc buf c))
          else None
      | ContentRef buf =>
          if Ascii.eqb c ";"
          then if reference_ok buf then go (Content 0) else None
          else if name_char c || Ascii.eqb c "#" then go (ContentRef (snoc buf c))
          else None
      | EmptyGt =>
          if Ascii.eqb c ">"
          then match stack with
               | name :: _ => close name stack
               | [] => None
               end
          else None
      | DeclGt => if Ascii.eqb c ">" then go (Content 0) else None
      end
  end.

Fixpoint run (st : state) (s : string) : option state :=
  match s with
  | "" => Some st
  | String c s' =>
      match step st c with
      | Some st' => run st' s'
      | None => None
      end
  end.

(** The text is a well-formed document: the recogniser reads it to the
    end, and then the root element has been read and closed. *)
Definition well_formed (s : string) : bool :=
  match run (St Begin [] false) s with
  | Some (St (Content _) [] true) => true
  | _ => false
  end.



End XmlSpec.

(** ** The text of a test descriptor, written out *)

Module TestDescriptor.
Import Py TextSpec Xml XmlSpec GenerateModule Generator.

(** [s] with every occurrence of the character [a] replaced by [new]. *)
Fixpoint subst_char (a : ascii) (new : string) (s : string) : string :=
  match s with
  | "" => ""
  | String c s' =>
      if Ascii.eqb c a then new +:+ subst_char a new s'
      else String c (subst_char a new s')
  end.

(** [s] with every double quote written as the reference [&quot;]. *)
Definition quote_escaped (s : string) : string := subst_char DQ "&quot;" s.

(** An attribute as it stands in a tag. *)
Definition attr (name value : string) : string :=
  " " +:+ name +:+ "=" +:+ dq +:+ value +:+ dq.

(** An [option] element with a name and a value. *)
Definition option_element (name value : string) : string :=
  "<option" +:+ attr "name" name +:+ attr "value" value +:+ "/>".

Definition install_preparer_open : string :=
  "<target_preparer"
  +:+ attr "class" "com.android.tradefed.targetprep.TestAppInstallSetup" +:+ ">".

Definition app_setup_preparer : string :=
  "<target_preparer"
  +:+ attr "class" "com.android.compatibility.targetprep.AppSetupPreparer" +:+ "/>".

Definition run_command_preparer_open : string :=
  "<target_preparer"
  +:+ attr "class" "com.android.tradefed.targetprep.RunCommandTargetPreparer"
  +:+ ">".

Definition launch_test : string :=
  "<test" +:+ attr "class" "com.android.compatibility.testtype.AppLaunchTest"
  +:+ "/>".

(** The document up to the package-name option. *)
Definition body_head : string :=
  "<configuration" +:+ attr "description" "Tests the compatibility of apps" +:+ ">
    <option" +:+ attr "name" "config-descriptor:metadata" +:+ attr "key" "plan"
  +:+ attr "value" "app-launch" +:+ "/>
    ".

(** The package-name option up to the opening quote of its value, and from
    the closing quote. *)
Definition option_open : string :=
  "<option" +:+ attr "name" "package-name" +:+ " value=" +:+ dq.

Definition option_close : string := dq +:+ "/>".

(** The document after the package-name option. *)
Definition body_tail : string :=
  "
    " +:+ install_preparer_open +:+ "
        " +:+ option_element "test-file-name" "csuite-launch-instrumentation.apk" +:+ "
    </target_preparer>
    " +:+ app_setup_preparer +:+ "
    " +:+ run_command_preparer_open +:+ "
        " +:+ option_element "run-command" "input keyevent KEYCODE_WAKEUP" +:+ "
        " +:+ option_element "run-command" "input keyevent KEYCODE_MENU" +:+ "
        " +:+ option_element "run-command" "input keyevent KEYCODE_HOME" +:+ "
    </target_preparer>
    " +:+ launch_test +:+ "
</configuration>
".

Definition body_prefix : string := body_head +:+ option_open.
Definition body_suffix : string := option_close +:+ body_tail.

(** The test descriptor in which [value] stands between the quotes of the
    package-name option. *)
Definition descriptor_with (value : string) : string :=
  _TEST_MODULE_HEADER +:+ body_prefix +:+ value +:+ body_suffix.

(** What a test descriptor is to hold, in this order. *)
Definition ordered_parts (value : string) : list string :=
  [ "<!-- " +:+ _AUTO_GENERATE_NOTE +:+ "-->";
    option_element "package-name" value;
    install_preparer_open;
    app_setup_preparer;
    run_command_preparer_open;
    option_element "run-command" "input keyevent KEYCODE_WAKEUP";
    option_element "run-command" "input keyevent KEYCODE_MENU";
    option_element "run-command" "input keyevent KEYCODE_HOME";
    "</target_preparer>";
    launch_test ].

(** What [write_test_module] writes, or [None] when it raises. *)
Definition test_module_text (package_name : string) : option string :=
  String.append _TEST_MODULE_HEADER <$> _prettify (configuration package_name).




Definition quote_escaped_char (c : ascii) : string :=
  if Ascii.eqb c DQ then "&quot;" else String c "".

(** The recogniser inside the value of the package-name option. *)
Definition in_package_name : state :=
  St (AttrValue (Tag StartTag "option" ["name"; "value"]) DQ)
     ["configuration"] false.

End TestDescriptor.

(** * Properties *)

(** ** Text *)

Section StringFacts.
Import Py TextSpec.

Lemma append_nil_r (s : string) : s +:+ "" = s.
Proof. induction s as [|c s IH]; simpl; [done | by rewrite IH]. Qed.

Lemma append_assoc (a b c : string) : (a +:+ b) +:+ c = a +:+ (b +:+ c).
Proof. induction a as [|x a IH]; simpl; [done | by rewrite IH]. Qed.

Lemma startswith_spec (p s : string) :
  startswith p s = true ↔ ∃ r, s = p +:+ r.
Proof.
  revert s. induction p as [|a p IH]; intros s; simpl.
  - split; [intros _; by exists s | done].
  - destruct s as [|b s]; simpl.
    + split; [done | intros [r Hr]; discriminate].
    + rewrite andb_true_iff, Ascii.eqb_eq, IH. split.
      * intros [-> [r ->]]. by exists r.
      * intros [r Hr]. injection Hr as -> ->. eauto.
Qed.

Lemma contains_spec (needle s : string) :
  contains needle s = true ↔ ∃ a b, s = a +:+ needle +:+ b.
Proof.
  induction s as [|c s IH].
  - simpl. rewrite orb_false_r, startswith_spec. split.
    + intros [r Hr]. by exists "", r.
    + intros [a [b Hab]]. destruct a; [by exists b | discriminate].
  - cbn [contains]. rewrite orb_true_iff, startswith_spec, IH. split.
    + intros [[r Hr] | [a [b Hab]]].
      * by exists "", r.
      * exists (String c a), b. simpl. by rewrite Hab.
    + intros [[|x a] [b Hab]]; simpl in Hab.
      * left. by exists b.
      * right. injection Hab as -> ->. by exists a, b.
Qed.

Lemma contains_intro (needle a b : string) :
  contains needle (a +:+ needle +:+ b) = true.
Proof. apply contains_spec. by exists a, b. Qed.

Lemma all_space_app (a b : string) :
  all_space (a +:+ b) = all_space a && all_space b.
Proof. induction a as [|c a IH]; simpl; [done | by rewrite IH, andb_assoc]. Qed.

Lemma lstrip_spaces (a r : string) :
  all_space a = true → lstrip (a +:+ r) = lstrip r.
Proof.
  induction a as [|c a IH]; simpl; [done |].
  intros [Hc Ha]%andb_true_iff. rewrite Hc. auto.
Qed.

Lemma lstrip_all_space (b : string) : all_space b = true → lstrip b = "".
Proof.
  induction b as [|c b IH]; simpl; [done |].
  intros [Hc Hb]%andb_true_iff. rewrite Hc. auto.
Qed.

Lemma lstrip_decompose (s : string) :
  ∃ a, s = a +:+ lstrip s ∧ all_space a = true
       ∧ edge_is_space (first_char (lstrip s)) = false.
Proof.
  induction s as [|c s (a & Hs & Ha & Hf)]; simpl.
  - by exists "".
  - destruct (isspace c) eqn:Hc.
    + exists (String c a). simpl. rewrite Hc, Ha. by rewrite <- Hs.
    + exists "". simpl. by rewrite Hc.
Qed.

Lemma rstrip_all_space (b : string) : all_space b = true → rstrip b = "".
Proof.
  induction b as [|c b IH]; simpl; [done |].
  intros [Hc Hb]%andb_true_iff. by rewrite IH, Hc.
Qed.

Lemma rstrip_nonempty (c : ascii) (s : string) :
  rstrip s ≠ "" → rstrip (String c s) = String c (rstrip s).
Proof. simpl. by destruct (rstrip s). Qed.

Lemma rstrip_kept (p b : string) :
  all_space b = true → edge_is_space (last_char p) = false →
  rstrip (p +:+ b) = p.
Proof.
  intros Hb. induction p as [|c p IH]; intros Hl.
  - by apply rstrip_all_space.
  - destruct p as [|c' p].
    + simpl in *. rewrite (rstrip_all_space b Hb). by rewrite Hl.
    + change (String c (String c' p) +:+ b)
        with (String c (String c' p +:+ b)).
      rewrite rstrip_nonempty; rewrite IH; done.
Qed.

Lemma rstrip_decompose (s : string) :
  ∃ b, s = rstrip s +:+ b ∧ all_space b = true
       ∧ edge_is_space (last_char (rstrip s)) = false.
Proof.
  induction s as [|c s (b & Hs & Hb & Hl)]; simpl.
  - by exists "".
  - destruct (rstrip s) as [|c' r] eqn:Hr.
    + simpl in Hs. subst b. destruct (isspace c) eqn:Hc.
      * exists (String c s). simpl. by rewrite Hc, Hb.
      * exists s. simpl. by rewrite Hc.
    + exists b. rewrite Hs at 1. done.
Qed.

Lemma rstrip_first (s : string) :
  edge_is_space (first_char s) = false →
  edge_is_space (first_char (rstrip s)) = false.
Proof.
  destruct s as [|c s]; [done |]. simpl. intros Hc.
  destruct (rstrip s); [by rewrite Hc | done].
Qed.

(** [strip] removes exactly the leading and trailing whitespace. *)
Lemma strip_trimmed (line : string) : trimmed_of line (strip line).
Proof.
  unfold strip.
  destruct (lstrip_decompose line) as (a & Hline & Ha & Hf).
  destruct (rstrip_decompose (lstrip line)) as (b & Hl & Hb & Hlast).
  exists a, b. repeat split; try done.
  - by rewrite <- Hl.
  - by apply rstrip_first.
Qed.

Lemma trimmed_of_strip (line p : string) :
  trimmed_of line p → p = strip line.
Proof.
  intros (a & b & -> & Ha & Hb & Hf & Hl). unfold strip.
  rewrite lstrip_spaces by done.
  destruct p as [|c p].
  - simpl. rewrite lstrip_all_space by done. done.
  - simpl in Hf. cbn [String.append lstrip]. rewrite Hf.
    change (String c (p +:+ b)) with (String c p +:+ b).
    by rewrite rstrip_kept.
Qed.

Lemma strip_idemp (s : string) : strip (strip s) = strip s.
Proof.
  symmetry. apply trimmed_of_strip.
  destruct (strip_trimmed s) as (a & b & _ & _ & _ & Hf & Hl).
  exists "", "". rewrite append_nil_r. done.
Qed.

(** The lines that [readlines] returns make up the text. *)
Lemma readlines_concat (s : string) : String.concat "" (readlines s) = s.
Proof.
  assert (Hc : ∀ l ls c, String.concat "" (String c l :: ls)
                         = String c (String.concat "" (l :: ls))).
  { intros l ls c. simpl. by destruct ls. }
  induction s as [|c s IH]; [done |]. cbn [readlines].
  destruct (Ascii.eqb c LF).
  - destruct (readlines s) eqn:Hr; simpl in *; by rewrite <- IH.
  - destruct (readlines s) as [|l ls] eqn:Hr.
    + simpl in *. by rewrite <- IH.
    + rewrite Hc. by rewrite IH.
Qed.

End StringFacts.

Section OrderFacts.
Import Py TextSpec.

Lemma startswith_drop (f s : string) :
  startswith f s = true → s = f +:+ drop (String.length f) s.
Proof.
  revert s. induction f as [|a f IH]; intros [|b s]; simpl; try done.
  intros [->%Ascii.eqb_eq Hf]%andb_true_iff. f_equal. auto.
Qed.

Lemma find_after_sound (f s b : string) :
  find_after f s = Some b → ∃ a, s = a +:+ f +:+ b.
Proof.
  induction s as [|c s IH].
  - cbn [find_after]. destruct (startswith f "") eqn:Hf; [|done].
    intros [= <-]. exists "". by apply startswith_drop.
  - cbn [find_after]. destruct (startswith f (String c s)) eqn:Hf.
    + intros [= <-]. exists "". by apply startswith_drop.
    + intros [a ->]%IH. by exists (String c a).
Qed.

Lemma in_orderb_sound (fragments : list string) (s : string) :
  in_orderb fragments s = true → in_order fragments s.
Proof.
  revert s. induction fragments as [|f fs IH]; intros s; simpl; [done |].
  destruct (find_after f s) as [b|] eqn:Hb; [|done].
  intros Hfs. destruct (find_after_sound _ _ _ Hb) as [a ->]. eauto.
Qed.

Lemma in_order_app (fs gs : list string) (s t : string) :
  in_order fs s → in_order gs t → in_order (fs ++ gs)%list (s +:+ t).
Proof.
  revert s. induction fs as [|f fs IH]; intros s; simpl.
  - intros _ Hg. destruct gs as [|g gs]; [done |].
    destruct Hg as (a & b & -> & Hb). exists (s +:+ a), b.
    by rewrite append_assoc.
  - intros (a & b & -> & Hb) Hg. exists a, (b +:+ t).
    rewrite !append_assoc. eauto.
Qed.

Lemma in_order_whole (f : string) : in_order [f] f.
Proof. exists "", "". by rewrite append_nil_r. Qed.

End OrderFacts.

(** ** The package list *)

Section PackageList.
Import Py TextSpec Generator.

Variable set_iter : gset string → list string.
Hypothesis set_iter_elem : ∀ X x, x ∈ set_iter X ↔ x ∈ X.
Hypothesis set_iter_NoDup : ∀ X, NoDup (set_iter X).

Lemma elem_of_parse_package_list (text p : string) :
  p ∈ parse_package_list set_iter text ↔
  (∃ line, line ∈ readlines text ∧ p = strip line)
  ∧ p ≠ "" ∧ startswith "#" p = false.
Proof.
  unfold parse_package_list.
  rewrite list_elem_of_In, filter_In, <- list_elem_of_In, set_iter_elem.
  rewrite elem_of_list_to_set, list_elem_of_fmap.
  rewrite andb_true_iff, !negb_true_iff, String.eqb_neq.
  split.
  - intros [(line & -> & Hl) [Hne Hc]]. eauto.
  - intros [(line & Hl & ->) [Hne Hc]]. eauto.
Qed.

(** C2: the package names that [parse_package_list] yields are pairwise
    distinct, and a string is among them exactly when it is some line of
    the input with its leading and trailing whitespace removed, is not
    empty and does not start with the comment character; this holds for
    every input text and every iteration order of the set. *)
Theorem parse_package_list_spec (text : string) :
  NoDup (parse_package_list set_iter text)
  ∧ ∀ p, p ∈ parse_package_list set_iter text ↔
         (∃ line, line ∈ readlines text ∧ trimmed_of line p)
         ∧ p ≠ "" ∧ startswith "#" p = false.
Proof.
  split.
  - unfold parse_package_list.
    apply NoDup_ListNoDup, List.NoDup_filter, NoDup_ListNoDup, set_iter_NoDup.
  - intros p. rewrite elem_of_parse_package_list.
    split; intros [[line [Hl Hp]] Hrest]; (split; [|done]); exists line.
    + subst p. split; [done | apply strip_trimmed].
    + split; [done | by apply trimmed_of_strip].
Qed.

End PackageList.

Lemma parse_package_list_spec_witness :
let text := "
# targets
  com.example.app  
com.example.app
com.example.other" in
NoDup (Generator.parse_package_list elements text)
∧ ∀ p, p ∈ Generator.parse_package_list elements text ↔
       (∃ line, line ∈ Py.readlines text ∧ TextSpec.trimmed_of line p)
       ∧ p ≠ "" ∧ Py.startswith "#" p = false.
Proof.
apply (parse_package_list_spec elements).
- intros X x. apply elem_of_elements.
- intros X. apply NoDup_elements.
Defined.

Example parse_package_list_example :
list_to_set (C := gset string)
  (Generator.parse_package_list elements "
# targets
  com.example.app  
com.example.app
com.example.other")
= {[ "com.example.app"; "com.example.other" ]}.
Proof. vm_compute. reflexivity. Qed.

(** ** The build descriptor *)

Section BuildModule.
Import Py TextSpec GenerateModule Generator.

(** The module block of a build descriptor. *)
Definition module_block (package_name : string) : string :=
  "csuite_config {
    name: " +:+ dq +:+ "csuite_" +:+ package_name +:+ dq +:+ ",
}
".

(** The text of a build descriptor. *)
Definition build_module_text (package_name : string) : string :=
  _BUILD_MODULE_HEADER +:+ module_block package_name.

Lemma format_build_module_template (package_name : string) :
  format _BUILD_MODULE_TEMPLATE [("package_name", package_name)]
  = Some (module_block package_name).
Proof. reflexivity. Qed.

Lemma write_build_module_eq {W} (package_name : string)
    (out_file : string → M W unit) :
  write_build_module package_name out_file
  = out_file (build_module_text package_name).
Proof.
  unfold write_build_module. by rewrite format_build_module_template.
Qed.

(** The comment lines of the licence header, as a build file writes them. *)
Definition build_license_comment : list string :=
  map (λ l, "// " +:+ l)
      (copyright_line
         :: List.filter (λ l, negb (String.eqb l "")) license_lines).

Lemma build_header_in_order :
  in_order (build_license_comment ++ ["// " +:+ _AUTO_GENERATE_NOTE])%list
           _BUILD_MODULE_HEADER.
Proof. apply in_orderb_sound. vm_compute. reflexivity. Qed.

Lemma module_block_in_order (package_name : string) :
  in_order ["csuite_config {";
            "name: " +:+ dq +:+ "csuite_" +:+ package_name +:+ dq;
            "}"]
           (module_block package_name).
Proof.
  exists "", ("
    name: " +:+ dq +:+ "csuite_" +:+ package_name +:+ dq +:+ ",
}
"). split; [reflexivity |].
  exists "
    ", (",
}
"). split.
  { unfold module_block. simpl. rewrite !append_assoc. reflexivity. }
  exists ",
", "
". split; reflexivity || exact I.
Qed.

(** C6: whatever the package name, [write_build_module] writes one text
    to its stream: the header followed by the module block.  In that text
    the licence comment lines come first, then the comment carrying the
    auto-generated marker, then a [csuite_config] block whose [name] is
    the prefix [csuite_] followed by the package name. *)
Theorem write_build_module_content (package_name buf : string) :
  write_build_module package_name stringio_write buf
  = Return () (buf +:+ build_module_text package_name)
  ∧ in_order (build_license_comment
                ++ ["// " +:+ _AUTO_GENERATE_NOTE;
                    "csuite_config {";
                    "name: " +:+ dq +:+ "csuite_" +:+ package_name +:+ dq;
                    "}"])%list
             (build_module_text package_name).
Proof.
  split.
  - by rewrite write_build_module_eq.
  - unfold build_module_text.
    change (build_license_comment ++ _)%list
      with ((build_license_comment ++ ["// " +:+ _AUTO_GENERATE_NOTE])
            ++ ["csuite_config {";
                "name: " +:+ dq +:+ "csuite_" +:+ package_name +:+ dq;
                "}"])%list.
    apply in_order_app.
    + apply build_header_in_order.
    + apply module_block_in_order.
Qed.

End BuildModule.

(** ** Running adb *)

Section AdbFacts.
Import Py TestUtils.

Context {X : Type}.
Variable execute :
  list string → environment → X → option (Z * string * string) * X.

(** The world after a command was run that left the outside as [x']. *)
Definition after_run (w : world X) (argv : list string) (env : environment)
    (x' : X) : world X :=
  {| environ := environ w;
     _DEVICE_SERIAL := _DEVICE_SERIAL w;
     outside := x';
     started := (started w ++ [(argv, env)])%list |}.

Lemma subprocess_run_started (argv : list string) (env : option environment)
    (check : bool) (w : world X) rc out err x' :
  execute argv (default (environ w) env) (outside w) = (Some (rc, out, err), x') →
  subprocess_run execute argv env check w
  = if check && negb (rc =? 0)%Z
    then Raise (CalledProcessError rc argv out err)
               (after_run w argv (default (environ w) env) x')
    else Return {| args := argv; returncode := rc; stdout := out; stderr := err |}
                (after_run w argv (default (environ w) env) x').
Proof. intros Hx. unfold subprocess_run. by rewrite Hx. Qed.

(** C8: when the adb command assembled from the wrapper's arguments runs
    and ends with exit code [rc], standard output [out] and standard
    error [err], then [Adb.run] raises [CalledProcessError] carrying
    [rc], [out] and [err] if [check] is true or was not passed and [rc]
    is not zero, and otherwise returns exactly [rc], [out] and [err];
    [Adb.shell] is [Adb.run] with [shell] put first; and an uninstall
    with [check] false returns normally whatever the exit code. *)
Theorem Adb_run_spec (self : Adb) (args : list string) (check : option bool)
    (w : world X) (rc : Z) (out err : string) (x' : X) :
  let argv := (_args self ++ args)%list in
  let w' := after_run w argv (environ w) x' in
  execute argv (environ w) (outside w) = (Some (rc, out, err), x') →
  (check ≠ Some false → rc ≠ 0%Z →
     Adb_run execute self args check w
     = Raise (CalledProcessError rc argv out err) w')
  ∧ (check = Some false ∨ rc = 0%Z →
     Adb_run execute self args check w
     = Return {| TestUtils.args := argv; returncode := rc;
                 stdout := out; stderr := err |} w')
  ∧ Adb_shell execute self args check = Adb_run execute self ("shell" :: args) check
  ∧ (∀ package_name,
       args = ["uninstall"; package_name] →
       Adb_uninstall execute self package_name (Some false) w = Return () w').
Proof.
  intros argv w' Hx. unfold Adb_uninstall, Adb_run.
  repeat split.
  - intros Hc Hrc. rewrite (subprocess_run_started argv None _ w _ _ _ _ Hx).
    assert ((rc =? 0)%Z = false) as -> by by apply Z.eqb_neq.
    by destruct check as [[]|].
  - intros Hc. rewrite (subprocess_run_started argv None _ w _ _ _ _ Hx).
    destruct Hc as [-> | ->]; [done |]. by rewrite andb_false_r.
  - intros package_name ->. unfold mbind, M_bind.
    by rewrite (subprocess_run_started argv None _ w _ _ _ _ Hx).
Qed.

End AdbFacts.

(** A device on which the named package is not installed: uninstalling
  fails with exit code 1. *)
Definition adb_not_installed (argv : list string) (_ : TestUtils.environment)
  (x : unit) : option (Z * string * string) * unit :=
(Some (1%Z, "", "Failure [DELETE_FAILED_INTERNAL_ERROR]"), x).

Definition quiet_world : TestUtils.world unit :=
{| TestUtils.environ := ∅; TestUtils._DEVICE_SERIAL := Some "emulator-5554";
   TestUtils.outside := (); TestUtils.started := [] |}.

Lemma Adb_run_spec_witness :
TestUtils.Adb_uninstall adb_not_installed
  {| TestUtils._args := ["adb"; "-s"; "emulator-5554"] |}
  "android.csuite.nocrashtestapp" (Some false) quiet_world
= Return ()
    (after_run quiet_world
       ["adb"; "-s"; "emulator-5554"; "uninstall"; "android.csuite.nocrashtestapp"]
       ∅ ()).
Proof.
refine (proj2 (proj2 (proj2
  (Adb_run_spec adb_not_installed
     {| TestUtils._args := ["adb"; "-s"; "emulator-5554"] |}
     ["uninstall"; "android.csuite.nocrashtestapp"] (Some false) quiet_world
     1%Z "" "Failure [DELETE_FAILED_INTERNAL_ERROR]" () _))) _ _);
  reflexivity.
Defined.

(** ** Listing the installed packages *)

Module ListingSpec.
Import Py TextSpec.

Fixpoint count_char (c : ascii) (s : string) : nat :=
  match s with
  | "" => 0
  | String x s' => (if Ascii.eqb x c then 1 else 0) + count_char c s'
  end.

(** A line of the form [prefix:identifier]: one colon, which separates the
    two parts. *)
Definition prefix_identifier_line (l : string) : Prop := count_char ":" l = 1.

(** [field] is what line [l] holds between its first colon and its next
    colon, or its end when there is no other colon. *)
Definition second_field_of (l field : string) : Prop :=
  ∃ before rest, l = before +:+ ":" +:+ field +:+ rest
                 ∧ has_char ":" before = false
                 ∧ has_char ":" field = false
                 ∧ (rest = "" ∨ startswith ":" rest = true).
End ListingSpec.

Section ListPackages.
Import Py TextSpec TestUtils ListingSpec.

Lemma split_no_sep (c : ascii) (l : string) :
  has_char c l = false → split c l = [l].
Proof.
  induction l as [|x l IH]; simpl; [done |].
  intros [Hx Hl]%orb_false_iff. rewrite Hx, IH; done.
Qed.

Lemma split_nonempty (c : ascii) (l : string) : split c l ≠ [].
Proof.
  destruct l as [|x l]; simpl; [done |].
  destruct (Ascii.eqb x c); [done |]. by destruct (split c l).
Qed.

Lemma split_second (l : string) :
  match split ":" l !! 1%nat with
  | Some field => second_field_of l field
  | None => has_char ":" l = false
  end.
Proof.
  assert (Hfirst : ∀ s, ∃ f fs, split ":" s = f :: fs ∧ has_char ":" f = false
            ∧ (fs = [] → s = f)
            ∧ (fs ≠ [] → ∃ rest, s = f +:+ rest ∧ startswith ":" rest = true)).
  { induction s as [|x s (f & fs & Hs & Hf & Hnil & Hcons)]; simpl.
    - exists "", []. repeat split; try done.
    - destruct (Ascii.eqb x ":") eqn:Hx.
      + apply Ascii.eqb_eq in Hx as ->.
        exists "", (split ":" s). repeat split; try done.
        * intros Hn. by destruct (split_nonempty ":" s).
        * intros _. by exists (String ":" s).
      + rewrite Hs. exists (String x f), fs. simpl. rewrite Hx, Hf.
        repeat split; try done.
        * intros Hn. by rewrite <- Hnil.
        * intros Hn. destruct (Hcons Hn) as (rest & -> & Hr). by exists rest. }
  induction l as [|x l IH]; simpl; [done |].
  destruct (Ascii.eqb x ":") eqn:Hx.
  - apply Ascii.eqb_eq in Hx as ->. simpl.
    destruct (Hfirst l) as (f & fs & Hs & Hf & Hnil & Hcons). rewrite Hs. simpl.
    destruct fs as [|g gs].
    + exists "", "". rewrite Hnil by done. rewrite append_nil_r. eauto.
    + destruct Hcons as (rest & -> & Hr); [done |].
      exists "", rest. eauto.
  - destruct (split ":" l) as [|f fs] eqn:Hs.
    { by destruct (split_nonempty ":" l). }
    simpl in *. destruct fs as [|g gs]; simpl in *.
    + by rewrite IH.
    + destruct IH as (before & rest & -> & Hb & Hg & Hr).
      exists (String x before), rest. simpl. rewrite Hx. eauto.
Qed.

Lemma second_fields_Some (lines packages : list string) :
  second_fields lines = Some packages →
  Forall2 second_field_of lines packages.
Proof.
  unfold second_fields. rewrite mapM_Some. intros H.
  induction H as [|l p ls ps Hl _ IH]; constructor; [|done].
  pose proof (split_second l) as Hs. by rewrite Hl in Hs.
Qed.

Lemma second_fields_None (lines : list string) :
  second_fields lines = None ↔ ∃ l, l ∈ lines ∧ has_char ":" l = false.
Proof.
  unfold second_fields. induction lines as [|l ls IH].
  - split; [done | intros (l & Hl & _); by apply elem_of_nil in Hl].
  - cbn [mapM]. pose proof (split_second l) as Hs.
    destruct (split ":" l !! 1%nat) as [f|] eqn:Hf; simpl.
    + destruct Hs as (before & rest & -> & Hb & _ & _).
      assert (Hl : has_char ":" (before +:+ ":" +:+ f +:+ rest) = true).
      { clear. induction before as [|y b IHb]; simpl in *; [done |].
        rewrite IHb. apply orb_true_r. }
      destruct (mapM _ ls) eqn:Hm; simpl.
      * split; [done |]. intros (l' & [-> | Hin]%elem_of_cons & Hn).
        -- simpl in Hl, Hn. congruence.
        -- destruct IH as [_ IH]. discriminate IH. eauto.
      * split; [|done]. intros _. destruct IH as [IH _].
        destruct (IH eq_refl) as (l' & Hin & Hn).
        exists l'. split; [by apply list_elem_of_further | done].
    + split; [|done]. intros _. exists l. split; [apply list_elem_of_here | done].
Qed.

Context {X : Type}.
Variable execute :
  list string → environment → X → option (Z * string * string) * X.

(** C9 as amended: when the listing command runs and exits with code 0,
    [Adb.list_packages] raises [IndexError] exactly when some line of the
    command's standard output holds no colon; otherwise it returns, line
    by line, the text between the line's first colon and its next colon
    or its end, which for a line [prefix:identifier] is the
    identifier. *)
Theorem Adb_list_packages_spec (self : Adb) (w : world X)
    (out err : string) (x' : X) :
  let argv := (_args self ++ ["shell"; "pm"; "list"; "packages"])%list in
  let w' := after_run w argv (environ w) x' in
  execute argv (environ w) (outside w) = (Some (0%Z, out, err), x') →
  ((∃ l, l ∈ splitlines out ∧ has_char ":" l = false) →
     Adb_list_packages execute self w = Raise IndexError w')
  ∧ ((∀ l, l ∈ splitlines out → has_char ":" l = true) →
     ∃ packages,
       Adb_list_packages execute self w = Return packages w'
       ∧ Forall2 second_field_of (splitlines out) packages)
  ∧ (∀ l field, prefix_identifier_line l → second_field_of l field →
                ∃ before, l = before +:+ ":" +:+ field).
Proof.
  intros argv w' Hx.
  assert (Hrun : Adb_shell execute self ["pm"; "list"; "packages"] None w
            = Return {| args := argv; returncode := 0; stdout := out;
                        stderr := err |} w').
  { unfold Adb_shell, Adb_run.
    by rewrite (subprocess_run_started execute argv None _ w _ _ _ _ Hx). }
  unfold Adb_list_packages, mbind, M_bind. rewrite Hrun. cbn [stdout].
  repeat split.
  - intros Hbad. apply second_fields_None in Hbad. by rewrite Hbad.
  - intros Hall. destruct (second_fields (splitlines out)) as [packages|] eqn:Hp.
    + exists packages. split; [done | by apply second_fields_Some].
    + apply second_fields_None in Hp as (l & Hl & Hn).
      rewrite (Hall l Hl) in Hn. done.
  - intros l field Hone (before & rest & -> & Hb & Hf & Hr).
    exists before. destruct Hr as [-> | Hr]; [by rewrite append_nil_r |].
    exfalso. unfold prefix_identifier_line in Hone.
    assert (Hcount : ∀ a b, count_char ":" (a +:+ b)
                            = count_char ":" a + count_char ":" b).
    { intros a b. induction a as [|y a IHa]; simpl; [done |]. rewrite IHa. lia. }
    destruct rest as [|r rest]; [done |].
    cbn [startswith] in Hr. apply andb_true_iff in Hr as [<-%Ascii.eqb_eq _].
    rewrite !Hcount in Hone. cbn [count_char] in Hone.
    rewrite !Ascii.eqb_refl in Hone. lia.
Qed.

End ListPackages.

(** A device whose package listing holds a line with two colons. *)
Definition adb_two_colons (argv : list string) (_ : TestUtils.environment)
  (x : unit) : option (Z * string * string) * unit :=
(Some (0%Z, "package:com.android.shell
package:a:b
", ""), x).

Definition adb_emulator : TestUtils.Adb :=
{| TestUtils._args := ["adb"; "-s"; "emulator-5554"] |}.

Lemma Adb_list_packages_spec_witness :
∃ packages,
  TestUtils.Adb_list_packages adb_two_colons adb_emulator quiet_world
  = Return packages
      (after_run quiet_world
         ["adb"; "-s"; "emulator-5554"; "shell"; "pm"; "list"; "packages"] ∅ ())
  ∧ Forall2 ListingSpec.second_field_of
      ["package:com.android.shell"; "package:a:b"] packages.
Proof.
refine (proj1 (proj2
  (Adb_list_packages_spec adb_two_colons adb_emulator quiet_world
     "package:com.android.shell
package:a:b
" "" () _)) _).
- reflexivity.
- intros l Hl. vm_compute in Hl.
  repeat (apply elem_of_cons in Hl as [-> | Hl]; [reflexivity |]).
  by apply elem_of_nil in Hl.
Defined.

(** C9 as stated fails: the second line of this listing is not of the form
  [prefix:identifier] (it holds two colons), yet the call does not raise;
  it returns [a], which is not what follows the prefix either. *)
Lemma Adb_list_packages_two_colons :
¬ ListingSpec.prefix_identifier_line "package:a:b"
∧ "package:a:b" ∈ Py.splitlines "package:com.android.shell
package:a:b
"
∧ TestUtils.Adb_list_packages adb_two_colons adb_emulator quiet_world
  = Return ["com.android.shell"; "a"]
      (after_run quiet_world
         ["adb"; "-s"; "emulator-5554"; "shell"; "pm"; "list"; "packages"] ∅ ()).
Proof.
split; [|split].
- vm_compute. discriminate.
- vm_compute. apply list_elem_of_further, list_elem_of_here.
- vm_compute. reflexivity.
Qed.

(** ** Starting the harness *)

Section Harness.
Import Py TestUtils.

Context {X : Type}.
Variable execute :
  list string → environment → X → option (Z * string * string) * X.

(** The variables that [run_and_wait] deletes, in the order of the
    deletions. *)
Definition cleared_variables : list string :=
  ["ANDROID_BUILD_TOP"; "ANDROID_HOST_OUT"; "ANDROID_HOST_OUT_TESTCASES";
   "ANDROID_TARGET_OUT_TESTCASES"; "ANDROID_SERIAL"].

(** The environment the launcher is started with. *)
Definition harness_env (self : CSuiteHarness) (env : environment) : environment :=
  <["ANDROID_TARGET_OUT_TESTCASES" := _testcases_dir self]>
    (foldl (λ e k, delete k e) env cleared_variables).

Lemma del_item_present (key : string) (env : environment) (w : world X) :
  is_Some (env !! key) →
  del_item (X := X) key env w = Return (delete key env) w.
Proof. intros [v Hv]. unfold del_item. by rewrite Hv. Qed.

Lemma del_item_missing (key : string) (env : environment) (w : world X) :
  env !! key = None → del_item (X := X) key env w = Raise (KeyError key) w.
Proof. intros Hv. unfold del_item. by rewrite Hv. Qed.

(** C10: [run_and_wait] raises [KeyError] when one of the five variables
    is missing from the process environment, naming the first one
    missing, and then no command has been started and the world is as
    before; when all five are present, it starts the launcher with the
    given flags exactly once, in an environment that is the process
    environment without the five variables and with
    [ANDROID_TARGET_OUT_TESTCASES] set to the harness's test-case
    directory, and [os.environ] itself is left as it was. *)
Theorem run_and_wait_spec (self : CSuiteHarness) (flags : list string)
    (w : world X) :
  (∀ i key, cleared_variables !! i = Some key →
            environ w !! key = None →
            (∀ j k, (j < i)%nat → cleared_variables !! j = Some k →
                    is_Some (environ w !! k)) →
            run_and_wait execute self flags w = Raise (KeyError key) w)
  ∧ ((∀ key, key ∈ cleared_variables → is_Some (environ w !! key)) →
     subprocess_run execute (_launcher_binary self :: flags)
                    (Some (harness_env self (environ w))) false w
     = run_and_wait execute self flags w
     ∧ ∃ x', let w' := after_run w (_launcher_binary self :: flags)
                                 (harness_env self (environ w)) x' in
             environ w' = environ w
             ∧ started w' = (started w ++ [(_launcher_binary self :: flags,
                                            harness_env self (environ w))])%list
             ∧ (run_and_wait execute self flags w = Raise SpawnError w'
                ∨ ∃ rc out err,
                    run_and_wait execute self flags w
                    = Return {| args := _launcher_binary self :: flags;
                                returncode := rc; stdout := out;
                                stderr := err |} w')).
Proof.
  split.
  - intros i key Hi Hmiss Hbefore.
    assert (Hpre : ∀ j k, (j < i)%nat → cleared_variables !! j = Some k →
                          k ≠ key ∧ is_Some (environ w !! k)).
    { intros j k Hj Hk. split; [|by eapply Hbefore].
      intros ->. destruct (Hbefore j key Hj Hk) as [v Hv]. congruence. }
    unfold run_and_wait, mbind, M_bind, get_world.
    destruct i as [|[|[|[|[|i]]]]]; simpl in Hi; try discriminate;
      injection Hi as <-.
    + by rewrite del_item_missing.
    + destruct (Hpre 0%nat _ ltac:(lia) eq_refl) as [? ?].
      rewrite del_item_present by done.
      rewrite del_item_missing; [done | by rewrite lookup_delete_ne].
    + destruct (Hpre 0%nat _ ltac:(lia) eq_refl) as [? ?].
      destruct (Hpre 1%nat _ ltac:(lia) eq_refl) as [? ?].
      rewrite del_item_present by done.
      rewrite del_item_present by (by rewrite lookup_delete_ne).
      rewrite del_item_missing; [done | by rewrite !lookup_delete_ne].
    + destruct (Hpre 0%nat _ ltac:(lia) eq_refl) as [? ?].
      destruct (Hpre 1%nat _ ltac:(lia) eq_refl) as [? ?].
      destruct (Hpre 2%nat _ ltac:(lia) eq_refl) as [? ?].
      rewrite del_item_present by done.
      rewrite del_item_present by (by rewrite lookup_delete_ne).
      rewrite del_item_present by (by rewrite !lookup_delete_ne).
      rewrite del_item_missing; [done | by rewrite !lookup_delete_ne].
    + destruct (Hpre 0%nat _ ltac:(lia) eq_refl) as [? ?].
      destruct (Hpre 1%nat _ ltac:(lia) eq_refl) as [? ?].
      destruct (Hpre 2%nat _ ltac:(lia) eq_refl) as [? ?].
      destruct (Hpre 3%nat _ ltac:(lia) eq_refl) as [? ?].
      rewrite del_item_present by done.
      rewrite del_item_present by (by rewrite lookup_delete_ne).
      rewrite del_item_present by (by rewrite !lookup_delete_ne).
      rewrite del_item_present by (by rewrite !lookup_delete_ne).
      rewrite del_item_missing; [done | by rewrite !lookup_delete_ne].
  - intros Hall.
    assert (Hrun : run_and_wait execute self flags w
              = subprocess_run execute (_launcher_binary self :: flags)
                  (Some (harness_env self (environ w))) false w).
    { unfold run_and_wait, mbind, M_bind, get_world.
      assert (∀ key, key ∈ cleared_variables → is_Some (environ w !! key)) as H
        by done.
      do 5 (rewrite del_item_present
              by (rewrite ?lookup_delete_ne by done; apply H; set_solver);
            cbn beta iota).
      done. }
    split; [done |]. rewrite Hrun. unfold subprocess_run. cbn [default].
    destruct (execute _ _ _) as [[[[rc out] err]|] x'] eqn:Hx;
      exists x'; cbn zeta; (split; [done |]); (split; [done |]).
    + right. by exists rc, out, err.
    + by left.
Qed.

End Harness.

Example run_and_wait_missing_serial :
TestUtils.run_and_wait adb_not_installed
  {| TestUtils._launcher_binary := "csuite-tradefed";
     TestUtils._generate_module_binary := "csuite_generate_module";
     TestUtils._testcases_dir := "testcases" |}
  ["run"]
  {| TestUtils.environ :=
       {[ "ANDROID_BUILD_TOP" := "top"; "ANDROID_HOST_OUT" := "out";
          "ANDROID_HOST_OUT_TESTCASES" := "h";
          "ANDROID_TARGET_OUT_TESTCASES" := "t" ]};
     TestUtils._DEVICE_SERIAL := None;
     TestUtils.outside := (); TestUtils.started := [] |}
= Raise (KeyError "ANDROID_SERIAL")
    {| TestUtils.environ :=
         {[ "ANDROID_BUILD_TOP" := "top"; "ANDROID_HOST_OUT" := "out";
            "ANDROID_HOST_OUT_TESTCASES" := "h";
            "ANDROID_TARGET_OUT_TESTCASES" := "t" ]};
       TestUtils._DEVICE_SERIAL := None;
       TestUtils.outside := (); TestUtils.started := [] |}.
Proof. vm_compute. reflexivity. Qed.

(** ** Paths one and two levels below the root *)

Section OsFacts.
Import Py Os.

Lemma stat_1 (a : string) (root : dir) : stat [a] root = root !! a.
Proof. unfold stat. simpl. by destruct (root !! a). Qed.

Lemma stat_2 (a b : string) (root m : dir) :
  root !! a = Some (Dir m) → stat [a; b] root = m !! b.
Proof. intros Ha. unfold stat. simpl. rewrite Ha. simpl. by destruct (m !! b). Qed.

Lemma stat_2_not_dir (a b : string) (root : dir) :
  (∀ m, root !! a ≠ Some (Dir m)) → stat [a; b] root = None.
Proof.
  intros Ha. unfold stat. simpl. destruct (root !! a) as [[c|m]|] eqn:E; try done.
  by destruct (Ha m).
Qed.

Lemma in_dir_1 (a : string) (f : dir → dir) (root m : dir) :
  root !! a = Some (Dir m) → in_dir [a] f root = <[a := Dir (f m)]> root.
Proof. intros Ha. simpl. by rewrite Ha. Qed.

Lemma is_component_nonempty (name : string) : is_component name = true → name ≠ "".
Proof. intros H ->. done. Qed.

(** [os.mkdir] of an entry of the root. *)
Lemma mkdir_1 (a : string) (root : dir) :
  mkdir [a] root
  = match root !! a with
    | Some _ => Raise FileExistsError root
    | None => Return () (<[a := Dir ∅]> root)
    end.
Proof. unfold mkdir. rewrite stat_1. by destruct (root !! a). Qed.

(** Creating or emptying a file in a directory of the root, then writing
    one text to it. *)
Lemma open_write_2 (a b text : string) (root m : dir) :
  root !! a = Some (Dir m) →
  (∀ m', m !! b ≠ Some (Dir m')) →
  (open_w [a; b] ≫= λ _, write [a; b] text) root
  = Return () (<[a := Dir (<[b := File text]> m)]> root).
Proof.
  intros Ha Hb. unfold mbind, M_bind, open_w.
  rewrite (stat_2 _ _ _ _ Ha). cbn [split_last fmap option_fmap option_map].
  rewrite stat_1, Ha.
  assert (Hopen : match m !! b with
                  | Some (Dir _) => Raise IsADirectoryError root
                  | _ => Return () (in_dir [a] <[b:=File ""]> root)
                  end = Return () (<[a := Dir (<[b := File ""]> m)]> root)).
  { rewrite (in_dir_1 _ _ _ _ Ha).
    destruct (m !! b) as [[c|m']|] eqn:E; try done. by destruct (Hb m'). }
  rewrite Hopen. unfold write.
  rewrite (stat_2 a b _ (<[b := File ""]> m)) by apply lookup_insert_eq.
  rewrite lookup_insert_eq. cbn [split_last fmap option_fmap option_map].
  rewrite (in_dir_1 a _ _ (<[b := File ""]> m)) by apply lookup_insert_eq.
  by rewrite !insert_insert_eq.
Qed.

End OsFacts.

(** ** Package directories are created once *)

Module RepositorySpec.
Import Os.

(** The last component of a path. *)
Definition basename (src : path) : option string := snd <$> split_last src.

(** The directory [m] holds exactly the supplied artifact files: its
    names are the base names of the supplied paths, and each entry is a
    regular file with the content of a supplied file of that name. *)
Definition holds_exactly (host : dir) (apk_paths : list path) (m : dir) : Prop :=
  (∀ b, is_Some (m !! b) ↔ ∃ src, src ∈ apk_paths ∧ basename src = Some b)
  ∧ (∀ b n, m !! b = Some n →
            ∃ src c, src ∈ apk_paths ∧ basename src = Some b
                     ∧ stat src host = Some (File c) ∧ n = File c).

(** The world an outcome leaves. *)
Definition world_of {W A} (o : outcome W A) : W :=
  match o with
  | Return _ w => w
  | Raise _ w => w
  end.
End RepositorySpec.

Section Repository.
Import Py Os Generator TestUtils RepositorySpec.

Variable host : dir.

Lemma join_root_component {W} (name : string) (w : W) :
  is_component name = true → join_root name w = Return [name] w.
Proof. intros H. unfold join_root. by rewrite H. Qed.


Lemma holds_exactly_nil : holds_exactly host [] ∅.
Proof.
  split.
  - intros b. rewrite lookup_empty. split; [by intros [? ?] |].
    intros (src & Hsrc & _). by apply elem_of_nil in Hsrc.
  - intros b n. by rewrite lookup_empty.
Qed.

Lemma holds_exactly_snoc (apks : list path) (m : dir) (src : path)
    (b c : string) :
  holds_exactly host apks m → basename src = Some b →
  stat src host = Some (File c) →
  holds_exactly host (apks ++ [src]) (<[b := File c]> m).
Proof.
  intros [Hdom Hcontent] Hb Hc. split.
  - intros b'. rewrite lookup_insert. case_decide as Hbb.
    + subst b'. split; [|by eauto]. intros _. exists src.
      split; [|done]. apply elem_of_app. right. apply list_elem_of_here.
    + rewrite Hdom. split.
      * intros (s & Hs & Hsb). exists s. split; [|done].
        apply elem_of_app. by left.
      * intros (s & [Hs | Hs%list_elem_of_singleton]%elem_of_app & Hsb).
        -- by exists s.
        -- subst s. congruence.
  - intros b' n. rewrite lookup_insert. case_decide as Hbb.
    + intros [= <-]. subst b'. exists src, c. repeat split; try done.
      apply elem_of_app. right. apply list_elem_of_here.
    + intros Hn. destruct (Hcontent b' n Hn) as (s & c' & Hs & ? & ? & ?).
      exists s, c'. repeat split; try done. apply elem_of_app. by left.
Qed.

Lemma stat_file_basename (src : path) (c : string) :
  stat src host = Some (File c) → ∃ d b, split_last src = Some (d, b).
Proof.
  destruct src as [|x src]; [done |]. intros _.
  revert x. induction src as [|y src IH]; intros x; [by eexists _, _ |].
  destruct (IH y) as (d & b & Hs). exists (x :: d), b.
  change (split_last (x :: y :: src))
    with ((λ '(d, b), (x :: d, b)) <$> split_last (y :: src)).
  by rewrite Hs.
Qed.

(** Copying a regular file of the host into a package directory. *)
Lemma shutil_copy_file (name : string) (src : path) (b c : string)
    (root m : dir) :
  root !! name = Some (Dir m) →
  (∀ m', m !! b ≠ Some (Dir m')) →
  stat src host = Some (File c) → basename src = Some b →
  shutil_copy host src [name] root
  = Return () (<[name := Dir (<[b := File c]> m)]> root).
Proof.
  intros Hname Hb Hc Hbase. unfold shutil_copy. rewrite Hc.
  unfold basename in Hbase.
  destruct (split_last src) as [[d b']|]; [|done].
  injection Hbase as ->. by apply open_write_2.
Qed.

Lemma copy_loop (name : string) (copied apks : list path) (root m : dir) :
  root !! name = Some (Dir m) →
  holds_exactly host copied m →
  (∀ src, src ∈ apks → ∃ c, stat src host = Some (File c)) →
  ∃ m', for_each apks (λ f, shutil_copy host f [name]) root
        = Return () (<[name := Dir m']> root)
        ∧ holds_exactly host (copied ++ apks) m'.
Proof.
  revert copied root m. induction apks as [|src apks IH];
    intros copied root m Hname Hm Hfiles.
  - exists m. rewrite app_nil_r. split; [|done].
    cbn. by rewrite insert_id.
  - destruct (Hfiles src) as [c Hc]; [apply list_elem_of_here |].
    destruct (stat_file_basename _ _ Hc) as (d & b & Hsplit).
    assert (Hb : basename src = Some b) by (unfold basename; by rewrite Hsplit).
    assert (Hnodir : ∀ m', m !! b ≠ Some (Dir m')).
    { intros m' Hm'. destruct Hm as [_ Hcontent].
      by destruct (Hcontent _ _ Hm') as (? & ? & _ & _ & _ & ?). }
    cbn [for_each]. unfold mbind at 1, M_bind at 1.
    rewrite (shutil_copy_file _ _ _ _ _ _ Hname Hnodir Hc Hb).
    destruct (IH (copied ++ [src])%list (<[name := Dir (<[b := File c]> m)]> root)
                 (<[b := File c]> m)) as (m' & Hrun & Hm').
    + apply lookup_insert_eq.
    + by apply holds_exactly_snoc.
    + intros s Hs. apply Hfiles. by apply list_elem_of_further.
    + exists m'. rewrite Hrun, insert_insert_eq. split; [done |].
      by rewrite <- app_assoc in Hm'.
Qed.

(** Copies leave the package directory in place, also when one fails. *)
Lemma shutil_copy_keeps (name : string) (src : path) (root m : dir) :
  root !! name = Some (Dir m) →
  ∃ m', world_of (shutil_copy host src [name] root) !! name = Some (Dir m').
Proof.
  intros Hname. unfold shutil_copy.
  destruct (stat src host) as [[c|hm]|]; [|by exists m | by exists m].
  destruct (split_last src) as [[d b]|]; [|by exists m].
  cbn zeta. cbn [app]. unfold mbind, M_bind, open_w.
  rewrite (stat_2 _ _ _ _ Hname).
  cbn [split_last fmap option_fmap option_map]. rewrite stat_1, Hname.
  assert (Hin : ∀ f, in_dir [name] f root !! name = Some (Dir (f m))).
  { intros f. rewrite (in_dir_1 _ _ _ _ Hname). apply lookup_insert_eq. }
  destruct (m !! b) as [[c'|m'']|] eqn:Hb; [|by exists m|].
  - unfold write. rewrite (stat_2 _ _ _ _ (Hin _)), lookup_insert_eq.
    cbn [split_last fmap option_fmap option_map].
    eexists. cbn [world_of]. rewrite (in_dir_1 _ _ _ _ (Hin _)).
    apply lookup_insert_eq.
  - unfold write. rewrite (stat_2 _ _ _ _ (Hin _)), lookup_insert_eq.
    cbn [split_last fmap option_fmap option_map].
    eexists. cbn [world_of]. rewrite (in_dir_1 _ _ _ _ (Hin _)).
    apply lookup_insert_eq.
Qed.

Lemma copy_loop_keeps (name : string) (apks : list path) (root m : dir) :
  root !! name = Some (Dir m) →
  ∃ m', world_of (for_each apks (λ f, shutil_copy host f [name]) root) !! name
        = Some (Dir m').
Proof.
  revert root m. induction apks as [|src apks IH]; intros root m Hname.
  - by exists m.
  - cbn [for_each]. unfold mbind at 1, M_bind at 1.
    destruct (shutil_copy_keeps name src root m Hname) as [m1 Hm1].
    destruct (shutil_copy host src [name] root) as [[] w1 | e w1]; cbn in Hm1.
    + by apply (IH w1 m1).
    + by exists m1.
Qed.

Lemma add_package_apks_fresh (name : string) (apks : list path) (repo : dir) :
  is_component name = true → repo !! name = None →
  (∀ src, src ∈ apks → ∃ c, stat src host = Some (File c)) →
  ∃ m, add_package_apks host name apks repo = Return () (<[name := Dir m]> repo)
       ∧ holds_exactly host apks m.
Proof.
  intros Hcomp Hfresh Hfiles. unfold add_package_apks.
  unfold mbind at 1, M_bind at 1. rewrite join_root_component by done.
  unfold mbind at 1, M_bind at 1. rewrite mkdir_1, Hfresh.
  destruct (copy_loop name [] apks (<[name := Dir ∅]> repo) ∅)
    as (m & Hrun & Hm); [apply lookup_insert_eq | apply holds_exactly_nil | done |].
  exists m. rewrite Hrun, insert_insert_eq. done.
Qed.

Lemma add_package_apks_again (name : string) (apks1 apks2 : list path)
    (repo repo' : dir) :
  add_package_apks host name apks1 repo = Return () repo' →
  add_package_apks host name apks2 repo' = Raise FileExistsError repo'.
Proof.
  unfold add_package_apks. intros Hfirst.
  destruct (is_component name) eqn:Hcomp.
  - unfold mbind at 1, M_bind at 1 in Hfirst.
    rewrite join_root_component in Hfirst by done.
    unfold mbind at 1, M_bind at 1 in Hfirst. rewrite mkdir_1 in Hfirst.
    destruct (repo !! name) eqn:Hrepo; [done |].
    destruct (copy_loop_keeps name apks1 (<[name := Dir ∅]> repo) ∅)
      as [m' Hm']; [apply lookup_insert_eq |].
    rewrite Hfirst in Hm'. cbn in Hm'.
    unfold mbind at 1, M_bind at 1. rewrite join_root_component by done.
    unfold mbind at 1, M_bind at 1. by rewrite mkdir_1, Hm'.
  - exfalso. unfold join_root, mbind, M_bind in Hfirst. rewrite Hcomp in Hfirst.
    by destruct (String.eqb name "" || String.eqb name ".").
Qed.

Lemma generate_module_files_exists (name : string) (root : dir) :
  is_component name = true → is_Some (root !! name) →
  _generate_module_files name root = Raise FileExistsError root.
Proof.
  intros Hcomp [n Hn]. unfold _generate_module_files, _create_package_dir.
  unfold mbind, M_bind. rewrite join_root_component by done.
  by rewrite mkdir_1, Hn.
Qed.

(** C7: generating the module files of a package whose name is already
    an entry of the root directory raises [FileExistsError] and leaves
    the root directory as it was; a second [add_package_apks] for a
    package name that was staged before raises [FileExistsError] and
    leaves the repository as it was; and staging two distinct packages
    whose artifacts are regular files succeeds, after which each package
    directory holds exactly the artifact files supplied for it. *)
Theorem package_dir_created_once :
  (∀ name root, is_component name = true → is_Some (root !! name) →
     _generate_module_files name root = Raise FileExistsError root)
  ∧ (∀ name apks1 apks2 repo repo',
       add_package_apks host name apks1 repo = Return () repo' →
       add_package_apks host name apks2 repo' = Raise FileExistsError repo')
  ∧ (∀ name1 name2 apks1 apks2 repo,
       name1 ≠ name2 →
       is_component name1 = true → is_component name2 = true →
       repo !! name1 = None → repo !! name2 = None →
       (∀ src, src ∈ (apks1 ++ apks2)%list → ∃ c, stat src host = Some (File c)) →
       ∃ m1 m2,
         (add_package_apks host name1 apks1
            ≫= λ _, add_package_apks host name2 apks2) repo
         = Return () (<[name2 := Dir m2]> (<[name1 := Dir m1]> repo))
         ∧ holds_exactly host apks1 m1 ∧ holds_exactly host apks2 m2).
Proof.
  split; [exact generate_module_files_exists |].
  split; [exact add_package_apks_again |].
  intros name1 name2 apks1 apks2 repo Hne Hc1 Hc2 Hf1 Hf2 Hfiles.
  destruct (add_package_apks_fresh name1 apks1 repo Hc1 Hf1) as (m1 & Hrun1 & Hm1).
  { intros src Hsrc. apply Hfiles, elem_of_app. by left. }
  destruct (add_package_apks_fresh name2 apks2 (<[name1 := Dir m1]> repo) Hc2)
    as (m2 & Hrun2 & Hm2).
  { by rewrite lookup_insert_ne. }
  { intros src Hsrc. apply Hfiles, elem_of_app. by right. }
  exists m1, m2. unfold mbind, M_bind. rewrite Hrun1, Hrun2. done.
Qed.

End Repository.

(** ** Cleaning up before generation *)

(** A listing order for directories, and Python's set order, for the
  concrete runs below: the order of the map's and the set's elements. *)
Definition listing (m : dir) : list string := (map_to_list m).*1.

Definition marked : node := File GenerateModule._AUTO_GENERATE_NOTE.

(** A root directory whose generated descriptors lie two levels down. *)
Definition nested_root : dir :=
{[ "suite" := Dir {[ "app" := Dir {[ "AndroidTest.xml" := marked;
                                     "Android.bp" := marked ]} ]} ]}.

(** C1, at a root directory with descriptors below a subdirectory of a
  subdirectory: both descriptors exist, are named as descriptors are and
  hold the auto-generated marker, and [remove_existing_package_files]
  returns with the root directory unchanged. *)
Lemma remove_existing_package_files_keeps_nested :
Os.stat ["suite"; "app"; "AndroidTest.xml"] nested_root = Some marked
∧ Os.stat ["suite"; "app"; "Android.bp"] nested_root = Some marked
∧ Py.contains GenerateModule._AUTO_GENERATE_NOTE
              GenerateModule._AUTO_GENERATE_NOTE = true
∧ Generator.remove_existing_package_files listing nested_root
  = Return () nested_root.
Proof. repeat split; vm_compute; reflexivity. Qed.

(** The same happens one level down when the directory's name starts with
  a dot. *)
Example remove_existing_package_files_keeps_hidden :
let root : dir := {[ ".pkg" := Dir {[ "AndroidTest.xml" := marked ]} ]} in
Generator.remove_existing_package_files listing root = Return () root.
Proof. vm_compute. reflexivity. Qed.

(** One level down, in a directory that is not hidden, the descriptors go
  and so does the directory they leave empty; a file without the marker
  stays, and keeps its directory. *)
Example remove_existing_package_files_one_level :
Generator.remove_existing_package_files listing
  {[ "existing_package" := Dir {[ "AndroidTest.xml" := marked;
                                  "Android.bp" := marked ]};
     "by_hand" := Dir {[ "AndroidTest.xml" := File "<configuration/>";
                         "Android.bp" := marked ]} ]}
= Return () {[ "by_hand" := Dir {[ "AndroidTest.xml" := File "<configuration/>" ]} ]}.
Proof. vm_compute. reflexivity. Qed.

(** ** Generating twice *)

(** C3, at a package list whose one name starts with a dot: the first run
  on an empty root directory succeeds and leaves the two descriptors of
  the package; the second run with the same list and root directory
  raises [FileExistsError], because the clean-up does not look into the
  package directory and its creation then collides. *)
Lemma generate_twice_hidden_package :
∃ root1 bp xml,
  Generator.generate_all_modules_from_config elements listing ".pkg
" ∅ = Return () root1
  ∧ root1 = {[ ".pkg" := Dir {[ "Android.bp" := File bp;
                                "AndroidTest.xml" := File xml ]} ]}
  ∧ Py.contains GenerateModule._AUTO_GENERATE_NOTE bp = true
  ∧ Py.contains GenerateModule._AUTO_GENERATE_NOTE xml = true
  ∧ Generator.generate_all_modules_from_config elements listing ".pkg
" root1 = Raise FileExistsError root1.
Proof.
eexists _, _, _. split; [vm_compute; reflexivity |].
split; [vm_compute; reflexivity |].
repeat split; vm_compute; reflexivity.
Qed.

(** With a package name that does not start with a dot the second run
  succeeds and leaves what the first one left. *)
Example generate_twice_visible_package :
∃ root1,
  Generator.generate_all_modules_from_config elements listing "pkg
" ∅ = Return () root1
  ∧ Generator.generate_all_modules_from_config elements listing "pkg
" root1 = Return () root1.
Proof. eexists. split; vm_compute; reflexivity. Qed.

(** ** The test descriptor *)

Section TestModule.
Import Py TextSpec Xml XmlSpec GenerateModule Generator TestDescriptor.

Lemma write_test_module_eq {W} (package_name : string)
    (out_file : string → M W unit) :
  write_test_module package_name out_file
  = match test_module_text package_name with
    | Some text => out_file text
    | None => raise ExpatError
    end.
Proof.
  unfold write_test_module, test_module_text.
  by destruct (_prettify (configuration package_name)).
Qed.

Lemma values_ok_configuration (package_name : string) :
  values_ok (configuration package_name) = all_chars xml_char package_name.
Proof.
  cbn. destruct (all_chars xml_char package_name); reflexivity.
Qed.

Lemma pretty_configuration (package_name : string) :
  drop (String.length declaration + 1)
       (toprettyxml "    " (configuration package_name))
  = body_prefix +:+ _write_data package_name +:+ body_suffix.
Proof.
  vm_compute.
  repeat match goal with
         | |- String ?a ?x = String ?a ?y => apply (f_equal (String a))
         end.
  let w := eval vm_compute in (_write_data package_name) in generalize w.
  intros v. induction v as [|c v IH]; [reflexivity |].
  simpl. f_equal. exact IH.
Qed.

(** *** Replacing in a text that is built from pieces *)

Lemma has_char_cons (a x : ascii) (s : string) :
  has_char a (String x s) = false → Ascii.eqb a x = false ∧ has_char a s = false.
Proof.
  cbn [has_char]. intros [Hx Hs]%orb_false_iff. by rewrite Ascii.eqb_sym.
Qed.

Lemma replace_go_other (a x : ascii) (old' new s : string) :
  Ascii.eqb a x = false →
  replace_go (String a old') new 0 (String x s)
  = String x (replace_go (String a old') new 0 s).
Proof. intros Hx. cbn [replace_go startswith]. by rewrite Hx. Qed.

Lemma replace_go_passes (a : ascii) (old' new s r : string) :
  has_char a s = false →
  replace_go (String a old') new 0 (s +:+ r)
  = s +:+ replace_go (String a old') new 0 r.
Proof.
  induction s as [|x s IH]; [done |].
  intros [Hx Hs]%has_char_cons. cbn [String.append].
  rewrite replace_go_other by done. by rewrite IH.
Qed.

Lemma replace_go_absent (a : ascii) (old' new s : string) :
  has_char a s = false → replace_go (String a old') new 0 s = s.
Proof.
  intros Hs. rewrite <- (append_nil_r s) at 1.
  rewrite replace_go_passes by done. cbn [replace_go]. apply append_nil_r.
Qed.

Lemma replace_go_char (a : ascii) (new s : string) :
  replace_go (String a "") new 0 s = subst_char a new s.
Proof.
  induction s as [|x s IH]; [done |].
  cbn [replace_go startswith subst_char String.length Nat.sub].
  rewrite andb_true_r, (Ascii.eqb_sym a x), IH. done.
Qed.



Lemma quote_escaped_cons (c : ascii) (s : string) :
  quote_escaped (String c s) = quote_escaped_char c +:+ quote_escaped s.
Proof.
  unfold quote_escaped, quote_escaped_char. cbn [subst_char].
  by destruct (Ascii.eqb c DQ).
Qed.




Lemma body_without_ampersand :
  has_char "&" body_prefix = false ∧ has_char "&" body_suffix = false.
Proof. split; vm_compute; reflexivity. Qed.




(** *** The recogniser on the descriptor *)

Lemma run_app (st : state) (a b : string) :
  run st (a +:+ b) = run st a ≫= λ st', run st' b.
Proof.
  revert st. induction a as [|c a IH]; intros st; [done |].
  cbn [String.append run]. destruct (step st c); [apply IH | done].
Qed.

Lemma run_header_prefix :
  run (St Begin [] false) (_TEST_MODULE_HEADER +:+ body_prefix)
  = Some in_package_name.
Proof. vm_compute. reflexivity. Qed.






(** *** The value that the package-name option denotes *)


(** *** The parts of the descriptor, in order *)

Lemma option_element_split (value : string) :
  option_element "package-name" value
  = option_open +:+ value +:+ option_close.
Proof.
  unfold option_element, option_open, option_close, attr.
  rewrite !append_assoc. reflexivity.
Qed.

Lemma body_tail_in_order :
  in_order [ install_preparer_open; app_setup_preparer;
             run_command_preparer_open;
             option_element "run-command" "input keyevent KEYCODE_WAKEUP";
             option_element "run-command" "input keyevent KEYCODE_MENU";
             option_element "run-command" "input keyevent KEYCODE_HOME";
             "</target_preparer>"; launch_test ]
           body_tail.
Proof. apply in_orderb_sound. vm_compute. reflexivity. Qed.

Lemma header_marker_in_order :
  in_order ["<!-- " +:+ _AUTO_GENERATE_NOTE +:+ "-->"] _TEST_MODULE_HEADER.
Proof. apply in_orderb_sound. vm_compute. reflexivity. Qed.

Lemma descriptor_in_order (value : string) :
  in_order (ordered_parts value) (descriptor_with value).
Proof.
  unfold descriptor_with.
  change (ordered_parts value)
    with (["<!-- " +:+ _AUTO_GENERATE_NOTE +:+ "-->"]
          ++ option_element "package-name" value
          :: [ install_preparer_open; app_setup_preparer;
               run_command_preparer_open;
               option_element "run-command" "input keyevent KEYCODE_WAKEUP";
               option_element "run-command" "input keyevent KEYCODE_MENU";
               option_element "run-command" "input keyevent KEYCODE_HOME";
               "</target_preparer>"; launch_test ])%list.
  apply in_order_app; [apply header_marker_in_order |].
  exists body_head, body_tail. split; [| apply body_tail_in_order].
  rewrite option_element_split. unfold body_prefix, body_suffix.
  by rewrite !append_assoc.
Qed.


(** [write_test_module] raises [ExpatError], and writes nothing, exactly
    when the package name holds a character that XML does not allow. *)
Theorem write_test_module_raises {W} (package_name : string)
    (out_file : string → M W unit) (w : W) :
  (all_chars xml_char package_name = false →
   write_test_module package_name out_file w = Raise ExpatError w)
  ∧ (all_chars xml_char package_name = true →
     ∃ text, write_test_module package_name out_file w = out_file text w).
Proof.
  rewrite write_test_module_eq. unfold test_module_text, _prettify, parse_tostring.
  rewrite values_ok_configuration. split; intros ->; [done |].
  eexists. reflexivity.
Qed.

End TestModule.

(** ** What the clean-up leaves, written out *)

Module CleanSpec.
Import Py Os GenerateModule Generator.

(** The directory [m] without its entry [fname], when that entry is a
    regular file that holds the auto-generated marker. *)
Definition without_generated (fname : string) (m : dir) : dir :=
  match m !! fname with
  | Some (File content) =>
      if contains _AUTO_GENERATE_NOTE content then delete fname m else m
  | _ => m
  end.

(** One node with [without_generated] applied, when it is a directory. *)
Definition strip_dir (fname : string) (n : node) : node :=
  match n with
  | Dir m => Dir (without_generated fname m)
  | File content => File content
  end.

(** What the clean-up leaves of the entry [n] named [d] of the root
    directory: a file stays; a directory whose name does not start with a
    dot loses its generated descriptors; a directory that is empty then is
    removed. *)
Definition cleaned_entry (d : string) (n : node) : option node :=
  match n with
  | File content => Some (File content)
  | Dir m =>
      let m' := if ishidden d then m
                else without_generated _ANDROID_BP_FILE_NAME
                       (without_generated _ANDROID_XML_FILE_NAME m) in
      if bool_decide (m' = ∅) then None else Some (Dir m')
  end.

Definition cleaned (root : dir) : dir := map_imap cleaned_entry root.

(** No directory of the root that the scan visits holds a directory named
    as a descriptor is. *)
Definition descriptors_are_files (root : dir) : Prop :=
  ∀ d m fname m',
    root !! d = Some (Dir m) → ishidden d = false →
    fname = _ANDROID_XML_FILE_NAME ∨ fname = _ANDROID_BP_FILE_NAME →
    m !! fname ≠ Some (Dir m').

Definition is_empty_dir (n : node) : bool :=
  match n with
  | Dir m => bool_decide (m = ∅)
  | File _ => false
  end.

(** The entry [k] of [r] is an empty directory. *)
Definition empty_at (r : dir) (k : string) : bool :=
  match r !! k with
  | Some n => is_empty_dir n
  | None => false
  end.

(** The root directory without its empty subdirectories. *)
Definition without_empty_dirs (root : dir) : dir :=
  filter (λ kn, is_empty_dir kn.2 = false) root.

(** The bodies of the loops of the clean-up. *)
Definition remove_empty_body (scandir : dir → list string) (filename : string)
    : M dir unit :=
  is_dir ← isdir [filename];
  if (is_dir : bool) then
    inner ← listdir scandir [filename];
    match inner with
    | [] => rmdir [filename]
    | _ :: _ => mret ()
    end
  else mret ().

Definition remove_body (filename : path) : M dir unit :=
  auto ← _is_auto_generated filename;
  if (auto : bool) then remove filename else mret ().

(** The path that the scan for [fname] yields for the entry [d] of the
    root directory, if any. *)
Definition selected (root : dir) (fname d : string) : option path :=
  match root !! d with
  | Some (Dir m) =>
      if negb (ishidden d) && bool_decide (is_Some (m !! fname))
      then Some [d; fname] else None
  | _ => None
  end.

End CleanSpec.

(** ** What generation leaves, written out *)

Module GenerateSpec.
Import Py Os GenerateModule Generator CleanSpec TestDescriptor.

(** The directory of a generated package whose test descriptor is [test]:
    the two descriptors and nothing else. *)
Definition package_dir_of (package_name test : string) : dir :=
  {[ _ANDROID_BP_FILE_NAME := File (build_module_text package_name);
     _ANDROID_XML_FILE_NAME := File test ]}.


(** The entry [fname] of [m] is a regular file that holds the marker. *)
Definition marked_at (m : dir) (fname : string) : bool :=
  match m !! fname with
  | Some (File content) => contains _AUTO_GENERATE_NOTE content
  | _ => false
  end.

End GenerateSpec.

(** ** The clean-up, one level below the root *)

Section CleanUp.
Import Py Os GenerateModule Generator CleanSpec.

Variable scandir : dir → list string.
Hypothesis scandir_elem : ∀ (m : dir) x, x ∈ scandir m ↔ is_Some (m !! x).
Hypothesis scandir_NoDup : ∀ m : dir, NoDup (scandir m).

Lemma scandir_nil (m : dir) : scandir m = [] ↔ m = ∅.
Proof.
  split.
  - intros Hnil. apply map_empty. intros k.
    destruct (m !! k) eqn:Hk; [|done].
    assert (k ∈ scandir m) as Hin by (apply scandir_elem; eauto).
    rewrite Hnil in Hin. by apply elem_of_nil in Hin.
  - intros ->. destruct (scandir ∅) as [|x l] eqn:Hl; [done |].
    assert (x ∈ scandir ∅) as Hin by (rewrite Hl; apply list_elem_of_here).
    apply scandir_elem in Hin as [? Hin]. by rewrite lookup_empty in Hin.
Qed.

(** *** Removing empty directories *)

Lemma isdir_1 (k : string) (r : dir) :
  isdir [k] r
  = Return (match r !! k with Some (Dir _) => true | _ => false end) r.
Proof. unfold isdir. by rewrite stat_1. Qed.

Lemma listdir_1 (k : string) (r : dir) :
  listdir scandir [k] r
  = match r !! k with
    | Some (Dir m) => Return (scandir m) r
    | Some (File _) => Raise NotADirectoryError r
    | None => Raise FileNotFoundError r
    end.
Proof. unfold listdir. by rewrite stat_1. Qed.

Lemma rmdir_1 (k : string) (r : dir) :
  rmdir [k] r
  = match r !! k with
    | Some (Dir m) =>
        if bool_decide (m = ∅) then Return () (delete k r)
        else Raise DirectoryNotEmpty r
    | Some (File _) => Raise NotADirectoryError r
    | None => Raise FileNotFoundError r
    end.
Proof. unfold rmdir. rewrite stat_1. by destruct (r !! k) as [[|]|]. Qed.

Lemma remove_empty_body_eq (filename : string) (r : dir) :
  (remove_empty_body scandir) filename r
  = Return () (if empty_at r filename then delete filename r else r).
Proof.
  unfold remove_empty_body, mbind, M_bind, empty_at. rewrite isdir_1.
  destruct (r !! filename) as [[c|m]|] eqn:Hf; cbn; [done | | done].
  rewrite listdir_1, Hf. destruct (scandir m) as [|x l] eqn:Hl.
  - apply scandir_nil in Hl as ->. rewrite rmdir_1, Hf.
    by rewrite !bool_decide_eq_true_2.
  - rewrite bool_decide_eq_false_2; [done |].
    intros ->. assert (scandir ∅ = []) as Hnil by by apply scandir_nil.
    congruence.
Qed.

Lemma remove_empty_loop (l : list string) (r : dir) :
  ∃ r', for_each l (remove_empty_body scandir) r = Return () r'
        ∧ ∀ k, r' !! k = if bool_decide (k ∈ l) && empty_at r k
                         then None else r !! k.
Proof.
  revert r. induction l as [|d l IH]; intros r.
  - exists r. split; [done |]. intros k.
    rewrite bool_decide_eq_false_2; [done |]. apply not_elem_of_nil.
  - cbn [for_each]. unfold mbind at 1, M_bind at 1.
    rewrite remove_empty_body_eq.
    destruct (IH (if empty_at r d then delete d r else r)) as (r' & Hrun & Hr').
    exists r'. split; [done |]. intros k. rewrite Hr'.
    destruct (decide (k = d)) as [-> | Hkd].
    + rewrite (bool_decide_eq_true_2 (d ∈ d :: l)) by apply list_elem_of_here.
      cbn [andb]. destruct (empty_at r d) eqn:Hd.
      * rewrite lookup_delete_eq. by destruct (_ && _).
      * rewrite Hd. by rewrite andb_false_r.
    + assert (Hlook : (if empty_at r d then delete d r else r) !! k = r !! k).
      { destruct (empty_at r d); [by rewrite lookup_delete_ne | done]. }
      unfold empty_at at 1. rewrite Hlook. fold (empty_at r k).
      rewrite (bool_decide_ext (k ∈ d :: l) (k ∈ l)); [done |].
      rewrite elem_of_cons. split; [by intros [? | ?] | by right].
Qed.

Lemma remove_empty_dirs_eq (root : dir) :
  _remove_empty_dirs scandir [] root = Return () (without_empty_dirs root)
  ∧ ∀ k, without_empty_dirs root !! k
         = match root !! k with
           | Some (Dir m) => if bool_decide (m = ∅) then None else Some (Dir m)
           | other => other
           end.
Proof.
  assert (Hlookup : ∀ k, without_empty_dirs root !! k
            = match root !! k with
              | Some (Dir m) => if bool_decide (m = ∅) then None else Some (Dir m)
              | other => other
              end).
  { intros k. unfold without_empty_dirs. rewrite map_lookup_filter.
    destruct (root !! k) as [[c|m]|] eqn:Hk; cbn; [| |done].
    - by rewrite option_guard_True.
    - case_bool_decide as Hm.
      + subst m. by rewrite option_guard_False.
      + by rewrite option_guard_True. }
  split; [|exact Hlookup].
  unfold _remove_empty_dirs, mbind at 1, M_bind at 1, listdir. cbn [stat walk].
  destruct (remove_empty_loop (scandir root) root) as (r' & Hrun & Hr').
  change (for_each (scandir root) _ root)
    with (for_each (scandir root) (remove_empty_body scandir) root).
  rewrite Hrun. f_equal. apply map_eq. intros k. rewrite Hr', Hlookup.
  unfold empty_at. destruct (root !! k) as [[c|m]|] eqn:Hk; cbn.
  - by rewrite andb_false_r.
  - rewrite bool_decide_eq_true_2 by (apply scandir_elem; eauto). done.
  - by rewrite andb_false_r.
Qed.

(** [_remove_empty_dirs] on the root directory never raises; it removes
    the subdirectories of the root that are empty, and only them: every
    other entry stays as it is, and so does an empty directory further
    down. *)
Theorem remove_empty_dirs_spec (root : dir) :
  _remove_empty_dirs scandir [] root = Return () (without_empty_dirs root)
  ∧ ∀ k, without_empty_dirs root !! k
         = match root !! k with
           | Some (Dir m) => if bool_decide (m = ∅) then None else Some (Dir m)
           | other => other
           end.
Proof. exact (remove_empty_dirs_eq root). Qed.

(** *** Removing the generated descriptors *)

Lemma without_generated_file (fname content : string) (m : dir) :
  m !! fname = Some (File content) →
  without_generated fname m
  = if contains _AUTO_GENERATE_NOTE content then delete fname m else m.
Proof. intros Hm. unfold without_generated. by rewrite Hm. Qed.

Lemma without_generated_other (fname other : string) (m : dir) :
  other ≠ fname → without_generated fname m !! other = m !! other.
Proof.
  intros Hne. unfold without_generated.
  destruct (m !! fname) as [[c|m']|]; [|done|done].
  destruct (contains _ c); [by rewrite lookup_delete_ne | done].
Qed.

Lemma remove_body_file (d fname content : string) (m r : dir) :
  r !! d = Some (Dir m) → m !! fname = Some (File content) →
  remove_body [d; fname] r
  = Return () (<[d := Dir (without_generated fname m)]> r).
Proof.
  intros Hd Hf. rewrite (without_generated_file _ _ _ Hf).
  unfold remove_body, _is_auto_generated, mbind, M_bind, read_text.
  rewrite (stat_2 _ _ _ _ Hd), Hf. cbn [mret M_ret].
  destruct (contains _AUTO_GENERATE_NOTE content).
  - unfold remove. rewrite (stat_2 _ _ _ _ Hd), Hf.
    cbn [split_last fmap option_fmap option_map].
    by rewrite (in_dir_1 _ _ _ _ Hd).
  - by rewrite insert_id.
Qed.

Lemma selected_None (root : dir) (fname d : string) :
  selected root fname d = None →
  (if negb (ishidden d) then strip_dir fname else id) <$> root !! d = root !! d.
Proof.
  unfold selected.
  destruct (root !! d) as [[c|m]|] eqn:Hd; destruct (ishidden d);
    cbn [negb andb fmap option_fmap option_map strip_dir id]; try done.
  case_bool_decide as Hf; [done |]. intros _.
  unfold without_generated. destruct (m !! fname) eqn:E; [|done].
  destruct Hf. eauto.
Qed.

Lemma remove_loop (fname : string) (root0 : dir) (l : list string) (r : dir) :
  NoDup l →
  (∀ d, d ∈ l → r !! d = root0 !! d) →
  (∀ d m m', root0 !! d = Some (Dir m) → ishidden d = false →
             m !! fname ≠ Some (Dir m')) →
  ∃ r', for_each (omap (selected root0 fname) l) remove_body r = Return () r'
        ∧ ∀ k, r' !! k
               = (if bool_decide (k ∈ l) && negb (ishidden k)
                  then strip_dir fname else id) <$> r !! k.
Proof.
  intros Hnodup Hsame Hfiles. revert r Hsame.
  induction l as [|d l IH]; intros r Hsame.
  - exists r. split; [done |]. intros k.
    rewrite bool_decide_eq_false_2 by apply not_elem_of_nil.
    cbn. by destruct (r !! k).
  - apply NoDup_cons in Hnodup as [Hd Hnodup].
    assert (Hin : ∀ k, k ≠ d → bool_decide (k ∈ d :: l) = bool_decide (k ∈ l)).
    { intros k Hk. apply bool_decide_ext. rewrite elem_of_cons.
      split; [by intros [? | ?] | by right]. }
    cbn [omap list_omap]. destruct (selected root0 fname d) as [p|] eqn:Hsel.
    + unfold selected in Hsel.
      destruct (root0 !! d) as [[c|m]|] eqn:Hroot; try done.
      destruct (ishidden d) eqn:Hhid; [done |]. cbn [negb andb] in Hsel.
      case_bool_decide as Hf; [|done]. injection Hsel as <-.
      destruct Hf as [[content|m'] Hf]; [| by destruct (Hfiles d m m')].
      assert (Hrd : r !! d = Some (Dir m)).
      { rewrite Hsame; [done | apply list_elem_of_here]. }
      cbn [for_each]. unfold mbind at 1, M_bind at 1.
      rewrite (remove_body_file _ _ _ _ _ Hrd Hf).
      destruct (IH Hnodup (<[d := Dir (without_generated fname m)]> r))
        as (r' & Hrun & Hr').
      { intros d' Hd'. rewrite lookup_insert_ne by (intros ->; done).
        apply Hsame. by apply list_elem_of_further. }
      exists r'. split; [done |]. intros k. rewrite Hr'.
      destruct (decide (k = d)) as [-> | Hkd].
      * rewrite lookup_insert_eq, Hrd.
        rewrite (bool_decide_eq_false_2 (d ∈ l)) by done.
        rewrite (bool_decide_eq_true_2 (d ∈ d :: l)) by apply list_elem_of_here.
        by rewrite Hhid.
      * rewrite lookup_insert_ne by done. by rewrite Hin.
    + destruct (IH Hnodup r) as (r' & Hrun & Hr').
      { intros d' Hd'. apply Hsame. by apply list_elem_of_further. }
      exists r'. split; [done |]. intros k. rewrite Hr'.
      destruct (decide (k = d)) as [-> | Hkd].
      * rewrite (bool_decide_eq_false_2 (d ∈ l)) by done.
        rewrite (bool_decide_eq_true_2 (d ∈ d :: l)) by apply list_elem_of_here.
        cbn [andb]. rewrite (Hsame d) by apply list_elem_of_here.
        rewrite (selected_None _ _ _ Hsel). by destruct (root0 !! d).
      * by rewrite Hin.
Qed.

Lemma remove_auto_generated_spec (fname : string) (root : dir) :
  (∀ d m m', root !! d = Some (Dir m) → ishidden d = false →
             m !! fname ≠ Some (Dir m')) →
  ∃ r', remove_auto_generated scandir fname root = Return () r'
        ∧ ∀ k, r' !! k
               = (if negb (ishidden k) then strip_dir fname else id) <$> root !! k.
Proof.
  intros Hfiles.
  destruct (remove_loop fname root (scandir root) root (scandir_NoDup root))
    as (r' & Hrun & Hr'); [done | done |].
  exists r'. split.
  - unfold remove_auto_generated, mbind at 1, M_bind at 1, iglob_star_star.
    exact Hrun.
  - intros k. rewrite Hr'. destruct (root !! k) eqn:Hk; [|done].
    rewrite bool_decide_eq_true_2 by (apply scandir_elem; eauto). done.
Qed.

Lemma remove_existing_package_files_eq (root : dir) :
  descriptors_are_files root →
  remove_existing_package_files scandir root = Return () (cleaned root)
  ∧ ∀ k, cleaned root !! k = root !! k ≫= cleaned_entry k.
Proof.
  intros Hfiles.
  split; [| intros k; apply map_lookup_imap].
  destruct (remove_auto_generated_spec _ANDROID_XML_FILE_NAME root)
    as (r1 & Hrun1 & Hr1).
  { intros d m m' Hd Hh. apply (Hfiles d m); auto. }
  destruct (remove_auto_generated_spec _ANDROID_BP_FILE_NAME r1)
    as (r2 & Hrun2 & Hr2).
  { intros d m1 m' Hd Hh. rewrite Hr1, Hh in Hd. cbn [negb] in Hd.
    destruct (root !! d) as [[c|m]|] eqn:Hroot; try done.
    cbn in Hd. injection Hd as <-.
    rewrite without_generated_other by done. apply (Hfiles d m); auto. }
  destruct (remove_empty_dirs_eq r2) as [Hrun3 Hr3].
  unfold remove_existing_package_files, mbind, M_bind.
  rewrite Hrun1, Hrun2, Hrun3. f_equal. apply map_eq. intros k.
  unfold cleaned. rewrite map_lookup_imap, Hr3, Hr2, Hr1. unfold cleaned_entry.
  destruct (root !! k) as [[c|m]|] eqn:Hroot; destruct (ishidden k);
    cbn [negb fmap option_fmap option_map strip_dir id mbind option_bind];
    try done; by case_bool_decide.
Qed.


End CleanUp.

(** ** Generating the files of one package *)

Section GenerateFiles.
Import Py Os TextSpec GenerateModule Generator CleanSpec GenerateSpec TestDescriptor.

Lemma open_w_2 (a b : string) (root m : dir) :
  root !! a = Some (Dir m) → (∀ m', m !! b ≠ Some (Dir m')) →
  open_w [a; b] root = Return () (<[a := Dir (<[b := File ""]> m)]> root).
Proof.
  intros Ha Hb. unfold open_w. rewrite (stat_2 _ _ _ _ Ha).
  cbn [split_last fmap option_fmap option_map]. rewrite stat_1, Ha.
  rewrite (in_dir_1 _ _ _ _ Ha).
  destruct (m !! b) as [[c|m']|] eqn:E; try done. by destruct (Hb m').
Qed.

Lemma write_2 (a b content text : string) (root m : dir) :
  root !! a = Some (Dir m) → m !! b = Some (File content) →
  write [a; b] text root
  = Return () (<[a := Dir (<[b := File (content +:+ text)]> m)]> root).
Proof.
  intros Ha Hb. unfold write. rewrite (stat_2 _ _ _ _ Ha), Hb.
  cbn [split_last fmap option_fmap option_map].
  by rewrite (in_dir_1 _ _ _ _ Ha).
Qed.

Lemma bind_Return {W A B} (m : M W A) (f : A → M W B) (w w' : W) (a : A) :
  m w = Return a w' → (m ≫= f) w = f a w'.
Proof. intros H. unfold mbind, M_bind. by rewrite H. Qed.

Lemma bind_Raise {W A B} (m : M W A) (f : A → M W B) (w w' : W) (e : exn) :
  m w = Raise e w' → (m ≫= f) w = Raise e w'.
Proof. intros H. unfold mbind, M_bind. by rewrite H. Qed.

Lemma create_package_dir_fresh (package_name : string) (root : dir) :
  is_component package_name = true → root !! package_name = None →
  _create_package_dir package_name root
  = Return [package_name] (<[package_name := Dir ∅]> root).
Proof.
  intros Hcomp Hfresh. unfold _create_package_dir.
  rewrite (bind_Return _ _ _ root [package_name])
    by by apply join_root_component.
  rewrite (bind_Return _ _ _ (<[package_name := Dir ∅]> root) ())
    by by rewrite mkdir_1, Hfresh.
  done.
Qed.

Lemma generate_module_files_eq (package_name : string) (root : dir) :
  is_component package_name = true → root !! package_name = None →
  _generate_module_files package_name root
  = match test_module_text package_name with
    | Some test =>
        Return () (<[package_name := Dir (package_dir_of package_name test)]> root)
    | None =>
        Raise ExpatError
              (<[package_name := Dir (package_dir_of package_name "")]> root)
    end.
Proof.
  intros Hcomp Hfresh.
  set (bp := File (build_module_text package_name)).
  assert (Hdir : ∀ test,
            <[_ANDROID_XML_FILE_NAME := File test]>
              (<[_ANDROID_BP_FILE_NAME := bp]> ∅)
            = package_dir_of package_name test).
  { intros test. unfold package_dir_of. by rewrite insert_insert_ne. }
  unfold _generate_module_files.
  rewrite (bind_Return _ _ _ _ _ (create_package_dir_fresh _ _ Hcomp Hfresh)).
  cbn [app].
  rewrite (bind_Return _ _ _ (<[package_name := Dir (<[_ANDROID_BP_FILE_NAME := File ""]> ∅)]> root) ()).
  2: { rewrite (open_w_2 _ _ _ ∅); [by rewrite insert_insert_eq | apply lookup_insert_eq |].
       intros m'. by rewrite lookup_empty. }
  rewrite (bind_Return _ _ _ (<[package_name := Dir (<[_ANDROID_BP_FILE_NAME := bp]> ∅)]> root) ()).
  2: { rewrite write_build_module_eq.
       rewrite (write_2 _ _ "" _ _ (<[_ANDROID_BP_FILE_NAME := File ""]> ∅));
         [by rewrite !insert_insert_eq | apply lookup_insert_eq | apply lookup_insert_eq]. }
  rewrite (bind_Return _ _ _
             (<[package_name := Dir (<[_ANDROID_XML_FILE_NAME := File ""]>
                                       (<[_ANDROID_BP_FILE_NAME := bp]> ∅))]> root) ()).
  2: { rewrite (open_w_2 _ _ _ (<[_ANDROID_BP_FILE_NAME := bp]> ∅));
         [by rewrite insert_insert_eq | apply lookup_insert_eq |].
       intros m'. rewrite lookup_insert_ne by done. by rewrite lookup_empty. }
  rewrite write_test_module_eq.
  destruct (test_module_text package_name) as [test|].
  - rewrite (write_2 _ _ "" _ _ (<[_ANDROID_XML_FILE_NAME := File ""]>
                                   (<[_ANDROID_BP_FILE_NAME := bp]> ∅)));
      [| apply lookup_insert_eq | apply lookup_insert_eq].
    rewrite !insert_insert_eq. cbn [String.append]. by rewrite Hdir.
  - unfold raise. by rewrite Hdir.
Qed.

(** For a package name that is a single path component and not yet an
    entry of the root directory, [_generate_module_files] makes the
    package directory with the two descriptors when the test descriptor
    can be written; when it cannot, it raises [ExpatError] after it has
    made the directory, written [Android.bp] and created an empty
    [AndroidTest.xml], and these stay behind. *)
Theorem generate_module_files_fresh (package_name : string) (root : dir) :
  is_component package_name = true → root !! package_name = None →
  _generate_module_files package_name root
  = match test_module_text package_name with
    | Some test =>
        Return () (<[package_name := Dir (package_dir_of package_name test)]> root)
    | None =>
        Raise ExpatError
              (<[package_name := Dir (package_dir_of package_name "")]> root)
    end.
Proof. exact (generate_module_files_eq package_name root). Qed.

End GenerateFiles.

(** ** Generating again *)

Section Regeneration.
Import Py Os TextSpec GenerateModule Generator CleanSpec GenerateSpec TestDescriptor.

Variable set_iter : gset string → list string.
Variable scandir : dir → list string.
Hypothesis set_iter_elem : ∀ X x, x ∈ set_iter X ↔ x ∈ X.
Hypothesis set_iter_NoDup : ∀ X, NoDup (set_iter X).
Hypothesis scandir_elem : ∀ (m : dir) x, x ∈ scandir m ↔ is_Some (m !! x).
Hypothesis scandir_NoDup : ∀ m : dir, NoDup (scandir m).

Lemma without_generated_lookup (fname k : string) (m : dir) :
  without_generated fname m !! k
  = if bool_decide (k = fname) && marked_at m fname then None else m !! k.
Proof.
  unfold without_generated, marked_at.
  destruct (m !! fname) as [[c|m']|] eqn:Hf; rewrite ?andb_false_r; try done.
  destruct (contains _ c); [| by rewrite andb_false_r].
  rewrite andb_true_r. case_bool_decide as Hk.
  - subst k. apply lookup_delete_eq.
  - by apply lookup_delete_ne.
Qed.












End Regeneration.

(** ** The enumerations used in concrete runs are enumerations *)

Lemma listing_elem (m : dir) (x : string) : x ∈ listing m ↔ is_Some (m !! x).
Proof.
  unfold listing. rewrite list_elem_of_fmap. split.
  - intros ([k n] & -> & Hkn). apply elem_of_map_to_list in Hkn. by eexists.
  - intros [n Hn]. exists (x, n). split; [done |]. by apply elem_of_map_to_list.
Qed.

Lemma listing_NoDup (m : dir) : NoDup (listing m).
Proof. apply NoDup_fst_map_to_list. Qed.

Lemma elements_elem (X : gset string) (x : string) : x ∈ elements X ↔ x ∈ X.
Proof. apply elem_of_elements. Qed.


Lemma remove_empty_dirs_spec_witness :
  let root : dir := {[ "empty" := Dir ∅;
                       "kept" := Dir {[ "deeper" := Dir ∅ ]};
                       "packages.list" := File "pkg" ]} in
  Generator._remove_empty_dirs listing [] root
  = Return () (CleanSpec.without_empty_dirs root)
  ∧ ∀ k, CleanSpec.without_empty_dirs root !! k
         = match root !! k with
           | Some (Dir m) => if bool_decide (m = ∅) then None else Some (Dir m)
           | other => other
           end.
Proof. exact (remove_empty_dirs_spec listing listing_elem _). Defined.

Lemma descriptors_are_files_empty : CleanSpec.descriptors_are_files ∅.
Proof. intros d m fname m' Hd. by rewrite lookup_empty in Hd. Qed.


Lemma generate_module_files_fresh_witness :
  Generator._generate_module_files "pkg" ∅
  = match TestDescriptor.test_module_text "pkg" with
    | Some test =>
        Return () (<["pkg" := Dir (GenerateSpec.package_dir_of "pkg" test)]> ∅)
    | None =>
        Raise ExpatError (<["pkg" := Dir (GenerateSpec.package_dir_of "pkg" "")]> ∅)
    end.
Proof.
  apply (generate_module_files_fresh "pkg" ∅); [reflexivity | apply lookup_empty].
Defined.




(** ** The adb wrapper names its device *)

Section AdbObject.
Import Py TestUtils RepositorySpec.

Context {X : Type}.
Variable execute :
  list string → environment → X → option (Z * string * string) * X.

(** The value of [x or fallback] for an optional string. *)
Definition or_else (x : option string) (fallback : string) : string :=
  match x with
  | None | Some "" => fallback
  | Some s => s
  end.

(** An optional string that Python treats as false. *)
Definition falsy (x : option string) : Prop := x = None ∨ x = Some "".

Lemma Adb_init_serial (adb_binary_path device_serial : option string)
    (serial : string) (w : world X) :
  serial ≠ "" →
  device_serial = Some serial
  ∨ (falsy device_serial ∧ _DEVICE_SERIAL w = Some serial) →
  Adb_init adb_binary_path device_serial w
  = Return {| _args := [or_else adb_binary_path "adb"; "-s"; serial] |} w.
Proof.
  intros Hne Hserial. unfold Adb_init, mbind, M_bind, get_device_serial.
  assert (Hbin : match adb_binary_path with
                 | None | Some "" => "adb"
                 | Some b => b
                 end = or_else adb_binary_path "adb") by done.
  rewrite Hbin. destruct serial as [|c serial]; [done |].
  destruct Hserial as [-> | [[-> | ->] Hglobal]]; [done | |];
    by rewrite Hglobal.
Qed.

Lemma Adb_init_no_serial (adb_binary_path device_serial : option string)
    (w : world X) :
  falsy device_serial → falsy (_DEVICE_SERIAL w) →
  Adb_init adb_binary_path device_serial w = Raise RuntimeError w.
Proof.
  intros [-> | ->] [Hg | Hg]; unfold Adb_init, mbind, M_bind, get_device_serial;
    by rewrite Hg.
Qed.

(** Constructing an [Adb] object needs a device serial: the one passed, or
    else the module's global.  With a non-empty serial the construction
    returns, and every command that [Adb.run] then starts is the binary
    (the one passed, or [adb]), the flag [-s], that serial, and the
    caller's arguments; with no serial at all the construction raises
    [RuntimeError], so no [Adb] object ever runs a command without naming
    its device. *)
Theorem Adb_names_its_device (adb_binary_path device_serial : option string)
    (w : world X) :
  (∀ serial, serial ≠ "" →
     device_serial = Some serial
     ∨ (falsy device_serial ∧ _DEVICE_SERIAL w = Some serial) →
     ∃ adb, Adb_init adb_binary_path device_serial w = Return adb w
            ∧ ∀ args check w0,
                started (world_of (Adb_run execute adb args check w0))
                = (started w0
                     ++ [(or_else adb_binary_path "adb" :: "-s" :: serial :: args,
                          environ w0)])%list)
  ∧ (falsy device_serial → falsy (_DEVICE_SERIAL w) →
     Adb_init adb_binary_path device_serial w = Raise RuntimeError w).
Proof.
  split; [| apply Adb_init_no_serial].
  intros serial Hne Hserial. eexists. split; [by apply Adb_init_serial |].
  intros args check w0. unfold Adb_run, subprocess_run. cbn [_args app default].
  destruct (execute _ _ _) as [[[[rc out] err]|] x']; [|done].
  by destruct (_ && _).
Qed.

(** [Adb.list_packages] runs the listing with the check enabled: a
    non-zero exit code of the adb command raises [CalledProcessError] with
    the captured streams whatever the output holds, and a command that
    cannot be started raises too; no line is parsed in either case. *)
Theorem Adb_list_packages_command_fails (self : Adb) (w : world X) (x' : X) :
  let argv := (_args self ++ ["shell"; "pm"; "list"; "packages"])%list in
  let w' := after_run w argv (environ w) x' in
  (∀ rc out err,
     execute argv (environ w) (outside w) = (Some (rc, out, err), x') →
     rc ≠ 0%Z →
     Adb_list_packages execute self w
     = Raise (CalledProcessError rc argv out err) w')
  ∧ (execute argv (environ w) (outside w) = (None, x') →
     Adb_list_packages execute self w = Raise SpawnError w').
Proof.
  intros argv w'. split.
  - intros rc out err Hx Hrc.
    unfold Adb_list_packages, Adb_shell. apply bind_Raise.
    unfold Adb_run, subprocess_run. cbn [default].
    change (_args self ++ "shell" :: ["pm"; "list"; "packages"])%list with argv.
    rewrite Hx. apply Z.eqb_neq in Hrc. by rewrite Hrc.
  - intros Hx. unfold Adb_list_packages, Adb_shell. apply bind_Raise.
    unfold Adb_run, subprocess_run. cbn [default].
    change (_args self ++ "shell" :: ["pm"; "list"; "packages"])%list with argv.
    by rewrite Hx.
Qed.

End AdbObject.

(** ** A copy that fails *)

Section FailedCopy.
Import Py Os Generator TestUtils RepositorySpec.

Variable host : dir.

(** A path of the host that does not name a regular file. *)
Definition not_a_file (src : path) : Prop := ∀ c, stat src host ≠ Some (File c).

Lemma shutil_copy_not_a_file (name : string) (src : path) (root : dir) :
  not_a_file src →
  ∃ e, shutil_copy host src [name] root = Raise e root.
Proof.
  intros Hsrc. unfold shutil_copy.
  destruct (stat src host) as [[c|m]|] eqn:Hs.
  - by destruct (Hsrc c).
  - by exists IsADirectoryError.
  - by exists FileNotFoundError.
Qed.

Lemma copy_loop_fails (name : string) (copied apks : list path) (root m : dir) :
  root !! name = Some (Dir m) →
  holds_exactly host copied m →
  (∃ src, src ∈ apks ∧ not_a_file src) →
  ∃ e w', for_each apks (λ f, shutil_copy host f [name]) root = Raise e w'.
Proof.
  revert copied root m. induction apks as [|src apks IH];
    intros copied root m Hname Hm (bad & Hbad & Hnot).
  { by apply elem_of_nil in Hbad. }
  cbn [for_each]. destruct (stat src host) as [[c|hm]|] eqn:Hs.
  - destruct (stat_file_basename host _ _ Hs) as (d & b & Hsplit).
    assert (Hb : basename src = Some b) by (unfold basename; by rewrite Hsplit).
    assert (Hnodir : ∀ m', m !! b ≠ Some (Dir m')).
    { intros m' Hm'. destruct Hm as [_ Hcontent].
      by destruct (Hcontent _ _ Hm') as (? & ? & _ & _ & _ & ?). }
    rewrite (bind_Return _ _ _ _ _
               (shutil_copy_file host _ _ _ _ _ _ Hname Hnodir Hs Hb)).
    apply (IH (copied ++ [src])%list _ (<[b := File c]> m)).
    + apply lookup_insert_eq.
    + by apply holds_exactly_snoc.
    + exists bad. split; [|done].
      apply elem_of_cons in Hbad as [-> | Hbad]; [|done].
      by destruct (Hnot c).
  - destruct (shutil_copy_not_a_file name src root) as (e & He).
    { intros c. by rewrite Hs. }
    exists e, root. by apply bind_Raise.
  - destruct (shutil_copy_not_a_file name src root) as (e & He).
    { intros c. by rewrite Hs. }
    exists e, root. by apply bind_Raise.
Qed.

(** When one of the artifact paths does not name a regular file,
    [add_package_apks] for a new package raises, but leaves in the
    repository the package directory it has created before copying; a
    later call for the same package, with whatever artifacts, therefore
    raises [FileExistsError] and changes nothing. *)
Theorem add_package_apks_failed_copy (package_name : string)
    (apk_paths : list path) (repo : dir) :
  is_component package_name = true → repo !! package_name = None →
  (∃ src, src ∈ apk_paths ∧ not_a_file src) →
  ∃ e repo' m,
    add_package_apks host package_name apk_paths repo = Raise e repo'
    ∧ repo' !! package_name = Some (Dir m)
    ∧ ∀ again, add_package_apks host package_name again repo'
               = Raise FileExistsError repo'.
Proof.
  intros Hcomp Hfresh Hbad.
  destruct (copy_loop_fails package_name [] apk_paths
              (<[package_name := Dir ∅]> repo) ∅)
    as (e & repo' & Hrun);
    [apply lookup_insert_eq | apply holds_exactly_nil | done |].
  destruct (copy_loop_keeps host package_name apk_paths
              (<[package_name := Dir ∅]> repo) ∅) as [m Hm];
    [apply lookup_insert_eq |].
  rewrite Hrun in Hm. cbn [world_of] in Hm.
  assert (Hadd : add_package_apks host package_name apk_paths repo = Raise e repo').
  { unfold add_package_apks.
    rewrite (bind_Return _ _ _ repo [package_name])
      by by apply join_root_component.
    rewrite (bind_Return _ _ _ (<[package_name := Dir ∅]> repo) ())
      by by rewrite mkdir_1, Hfresh.
    exact Hrun. }
  exists e, repo', m. repeat split; try done.
  intros again. unfold add_package_apks.
  rewrite (bind_Return _ _ _ repo' [package_name])
    by by apply join_root_component.
  apply bind_Raise. by rewrite mkdir_1, Hm.
Qed.

End FailedCopy.

(** ** The package-name value, character by character *)

Module MarkupSpec.
Import Py Xml XmlSpec TestDescriptor.

(** The text in which each character [c] of [s] is written as [f c]. *)
Fixpoint written (f : ascii → string) (s : string) : string :=
  match s with
  | "" => ""
  | String c s' => f c +:+ written f s'
  end.

(** What [minidom] writes for one character of an attribute value. *)
Definition markup_char (c : ascii) : string :=
  if Ascii.eqb c "&" then "&amp;"
  else if Ascii.eqb c "<" then "&lt;"
  else if Ascii.eqb c DQ then "&quot;"
  else if Ascii.eqb c ">" then "&gt;"
  else String c "".

(** What is left of it when the references to the less-than sign have been
    resolved, and then those to the greater-than sign. *)
Definition after_lt (c : ascii) : string :=
  if Ascii.eqb c "&" then "&amp;"
  else if Ascii.eqb c DQ then "&quot;"
  else if Ascii.eqb c ">" then "&gt;"
  else String c "".

Definition after_gt (c : ascii) : string :=
  if Ascii.eqb c "&" then "&amp;"
  else if Ascii.eqb c DQ then "&quot;"
  else String c "".

(** The recogniser inside a reference in the value of the package-name
    option. *)
Definition in_reference (buf : string) : state :=
  St (AttrRef (Tag StartTag "option" ["name"; "value"]) DQ buf)
     ["configuration"] false.

(** The recogniser is between the quotes of the package-name option. *)
Definition in_value (st : state) : Prop :=
  st = in_package_name ∨ ∃ buf, st = in_reference buf.

End MarkupSpec.

(** ** Package names with markup characters *)

Section Markup.
Import Py TextSpec Xml XmlSpec GenerateModule Generator TestDescriptor MarkupSpec.

Lemma has_char_app (a : ascii) (s r : string) :
  has_char a (s +:+ r) = has_char a s || has_char a r.
Proof.
  induction s as [|c s IH]; [done |].
  cbn [String.append has_char]. by rewrite IH, orb_assoc.
Qed.

Lemma subst_char_passes (a : ascii) (new p s : string) :
  has_char a p = false →
  subst_char a new (p +:+ s) = p +:+ subst_char a new s.
Proof.
  induction p as [|x p IH]; [done |].
  cbn [has_char]. intros [Hx Hp]%orb_false_iff.
  cbn [String.append subst_char]. by rewrite Hx, IH.
Qed.

(** The four cases of a character: one of the three that [minidom]
    escapes beside the less-than sign, that sign, or any other. *)
Lemma markup_cases (c : ascii) :
  c = "&"%char ∨ c = "<"%char ∨ c = DQ ∨ c = ">"%char
  ∨ (Ascii.eqb c "&" = false ∧ Ascii.eqb c "<" = false
     ∧ Ascii.eqb c DQ = false ∧ Ascii.eqb c ">" = false).
Proof.
  destruct (Ascii.eqb c "&") eqn:Ha; [apply Ascii.eqb_eq in Ha; auto |].
  destruct (Ascii.eqb c "<") eqn:Hl; [apply Ascii.eqb_eq in Hl; auto |].
  destruct (Ascii.eqb c DQ) eqn:Hq; [apply Ascii.eqb_eq in Hq; auto |].
  destruct (Ascii.eqb c ">") eqn:Hg; [apply Ascii.eqb_eq in Hg; auto |].
  by repeat right.
Qed.

Lemma markup_char_other (c : ascii) :
  Ascii.eqb c "&" = false → Ascii.eqb c "<" = false →
  Ascii.eqb c DQ = false → Ascii.eqb c ">" = false →
  markup_char c = String c "" ∧ after_lt c = String c ""
  ∧ after_gt c = String c "" ∧ quote_escaped_char c = String c "".
Proof.
  intros Ha Hl Hq Hg. unfold markup_char, after_lt, after_gt, quote_escaped_char.
  by rewrite Ha, Hl, Hq, Hg.
Qed.

(** What [minidom] writes for a value is its characters' texts. *)
Lemma write_data_written (s : string) :
  _write_data s = written markup_char s.
Proof.
  unfold _write_data, replace. unfold dq. rewrite !replace_go_char.
  induction s as [|c s IH]; [done |].
  cbn [written]. rewrite <- IH. clear IH.
  destruct (markup_cases c) as [-> | [-> | [-> | [-> | (Ha & Hl & Hq & Hg)]]]].
  - change (markup_char "&") with "&amp;".
    change (subst_char "&" "&amp;" (String "&" s))
      with ("&amp;" +:+ subst_char "&" "&amp;" s).
    by rewrite !subst_char_passes by reflexivity.
  - change (markup_char "<") with "&lt;".
    change (subst_char "&" "&amp;" (String "<" s))
      with (String "<" (subst_char "&" "&amp;" s)).
    change (subst_char "<" "&lt;" (String "<" ?x))
      with ("&lt;" +:+ subst_char "<" "&lt;" x).
    by rewrite !subst_char_passes by reflexivity.
  - change (markup_char DQ) with "&quot;".
    change (subst_char "&" "&amp;" (String DQ s))
      with (String DQ (subst_char "&" "&amp;" s)).
    change (subst_char "<" "&lt;" (String DQ ?x))
      with (String DQ (subst_char "<" "&lt;" x)).
    change (subst_char DQ "&quot;" (String DQ ?x))
      with ("&quot;" +:+ subst_char DQ "&quot;" x).
    by rewrite !subst_char_passes by reflexivity.
  - change (markup_char ">") with "&gt;".
    change (subst_char "&" "&amp;" (String ">" s))
      with (String ">" (subst_char "&" "&amp;" s)).
    change (subst_char "<" "&lt;" (String ">" ?x))
      with (String ">" (subst_char "<" "&lt;" x)).
    change (subst_char DQ "&quot;" (String ">" ?x))
      with (String ">" (subst_char DQ "&quot;" x)).
    change (subst_char ">" "&gt;" (String ">" ?x))
      with ("&gt;" +:+ subst_char ">" "&gt;" x).
    reflexivity.
  - destruct (markup_char_other c Ha Hl Hq Hg) as (-> & _).
    cbn [subst_char]. rewrite Ha. cbn [subst_char]. rewrite Hl.
    cbn [subst_char]. rewrite Hq. cbn [subst_char]. by rewrite Hg.
Qed.

Lemma written_quote_escaped (s : string) :
  written quote_escaped_char s = quote_escaped s.
Proof.
  induction s as [|c s IH]; [done |].
  cbn [written]. by rewrite quote_escaped_cons, IH.
Qed.

(** *** The three passes of [saxutils.unescape] *)

Lemma unescape_lt_written (s r : string) :
  replace_go "&lt;" "<" 0 (written markup_char s +:+ r)
  = written after_lt s +:+ replace_go "&lt;" "<" 0 r.
Proof.
  induction s as [|c s IH]; [done |].
  cbn [written]. rewrite !append_assoc.
  destruct (markup_cases c) as [-> | [-> | [-> | [-> | (Ha & Hl & Hq & Hg)]]]].
  - change (markup_char "&") with "&amp;". change (after_lt "&") with "&amp;".
    simpl. by rewrite IH.
  - change (markup_char "<") with "&lt;". change (after_lt "<") with "<".
    simpl. by rewrite IH.
  - change (markup_char DQ) with "&quot;". change (after_lt DQ) with "&quot;".
    simpl. by rewrite IH.
  - change (markup_char ">") with "&gt;". change (after_lt ">") with "&gt;".
    simpl. by rewrite IH.
  - destruct (markup_char_other c Ha Hl Hq Hg) as (-> & -> & _).
    cbn [String.append].
    rewrite replace_go_other by (by rewrite Ascii.eqb_sym). by rewrite IH.
Qed.

Lemma unescape_gt_written (s r : string) :
  replace_go "&gt;" ">" 0 (written after_lt s +:+ r)
  = written after_gt s +:+ replace_go "&gt;" ">" 0 r.
Proof.
  induction s as [|c s IH]; [done |].
  cbn [written]. rewrite !append_assoc.
  destruct (markup_cases c) as [-> | [-> | [-> | [-> | (Ha & Hl & Hq & Hg)]]]].
  - change (after_lt "&") with "&amp;". change (after_gt "&") with "&amp;".
    simpl. by rewrite IH.
  - change (after_lt "<") with "<". change (after_gt "<") with "<".
    simpl. by rewrite IH.
  - change (after_lt DQ) with "&quot;". change (after_gt DQ) with "&quot;".
    simpl. by rewrite IH.
  - change (after_lt ">") with "&gt;". change (after_gt ">") with ">".
    simpl. by rewrite IH.
  - destruct (markup_char_other c Ha Hl Hq Hg) as (_ & -> & -> & _).
    cbn [String.append].
    rewrite replace_go_other by (by rewrite Ascii.eqb_sym). by rewrite IH.
Qed.

Lemma unescape_amp_written (s r : string) :
  replace_go "&amp;" "&" 0 (written after_gt s +:+ r)
  = written quote_escaped_char s +:+ replace_go "&amp;" "&" 0 r.
Proof.
  induction s as [|c s IH]; [done |].
  cbn [written]. rewrite !append_assoc.
  destruct (markup_cases c) as [-> | [-> | [-> | [-> | (Ha & Hl & Hq & Hg)]]]].
  - change (after_gt "&") with "&amp;". change (quote_escaped_char "&") with "&".
    simpl. by rewrite IH.
  - change (after_gt "<") with "<". change (quote_escaped_char "<") with "<".
    simpl. by rewrite IH.
  - change (after_gt DQ) with "&quot;".
    change (quote_escaped_char DQ) with "&quot;".
    simpl. by rewrite IH.
  - change (after_gt ">") with ">". change (quote_escaped_char ">") with ">".
    simpl. by rewrite IH.
  - destruct (markup_char_other c Ha Hl Hq Hg) as (_ & _ & -> & ->).
    cbn [String.append].
    rewrite replace_go_other by (by rewrite Ascii.eqb_sym). by rewrite IH.
Qed.

(** Unescaping the pretty-printed document undoes what [minidom] has
    escaped, except for the double quote. *)
Lemma unescape_written (before after s : string) :
  has_char "&" before = false → has_char "&" after = false →
  unescape (before +:+ _write_data s +:+ after)
  = before +:+ quote_escaped s +:+ after.
Proof.
  intros Hp Hx. unfold unescape, replace. rewrite write_data_written.
  rewrite (replace_go_passes "&" _ _ before) by exact Hp.
  rewrite unescape_lt_written.
  rewrite (replace_go_absent "&" _ _ after) by exact Hx.
  rewrite (replace_go_passes "&" _ _ before) by exact Hp.
  rewrite unescape_gt_written.
  rewrite (replace_go_absent "&" _ _ after) by exact Hx.
  rewrite (replace_go_passes "&" _ _ before) by exact Hp.
  rewrite unescape_amp_written.
  rewrite (replace_go_absent "&" _ _ after) by exact Hx.
  by rewrite written_quote_escaped.
Qed.

Lemma test_module_text_legal (package_name : string) :
  all_chars xml_char package_name = true →
  test_module_text package_name
  = Some (descriptor_with (quote_escaped package_name)).
Proof.
  intros Hok. unfold test_module_text, _prettify, parse_tostring.
  rewrite values_ok_configuration, Hok, pretty_configuration.
  destruct body_without_ampersand as [Hp Hx].
  by rewrite (unescape_written body_prefix body_suffix package_name Hp Hx).
Qed.

(** *** The recogniser between the quotes *)

Lemma step_in_value (st : state) (c : ascii) :
  in_value st → Ascii.eqb c DQ = false →
  step st c = None
  ∨ ∃ st', step st c = Some st' ∧ in_value st' ∧ Ascii.eqb c "<" = false.
Proof.
  intros [-> | [buf ->]] Hq; unfold in_package_name, in_reference, step.
  - destruct (negb (xml_char c)); [by left |]. rewrite Hq.
    destruct (Ascii.eqb c "<"); [by left |].
    destruct (Ascii.eqb c "&"); right; eexists; (split; [done |]);
      (split; [| done]).
    + right. by exists "".
    + by left.
  - destruct (negb (xml_char c)); [by left |].
    destruct (Ascii.eqb c ";") eqn:Hs.
    + apply Ascii.eqb_eq in Hs as ->.
      destruct (reference_ok buf); [| by left].
      right. eexists. split; [done |]. split; [by left | done].
    + destruct (name_char c || Ascii.eqb c "#") eqn:Hn; [| by left].
      right. eexists. split; [done |]. split; [right; by eexists |].
      destruct (Ascii.eqb c "<") eqn:Hl; [| done].
      apply Ascii.eqb_eq in Hl as ->. done.
Qed.

Lemma run_in_value (v : string) (st : state) :
  in_value st → has_char DQ v = false →
  run st v = None
  ∨ ∃ st', run st v = Some st' ∧ in_value st' ∧ has_char "<" v = false.
Proof.
  revert st. induction v as [|c v IH]; intros st Hst Hq.
  { right. by exists st. }
  cbn [has_char] in Hq. apply orb_false_iff in Hq as [Hc Hq].
  cbn [run has_char].
  destruct (step_in_value st c Hst Hc) as [-> | (st' & -> & Hst' & ->)];
    [by left |].
  exact (IH st' Hst' Hq).
Qed.

Lemma quote_escaped_no_quote (s : string) :
  has_char DQ (quote_escaped s) = false.
Proof.
  induction s as [|c s IH]; [done |].
  rewrite quote_escaped_cons, has_char_app, IH, orb_false_r.
  unfold quote_escaped_char. destruct (Ascii.eqb c DQ) eqn:Hq; [done |].
  cbn [has_char]. by rewrite Hq.
Qed.

Lemma quote_escaped_keeps_lt (s : string) :
  has_char "<" (quote_escaped s) = has_char "<" s.
Proof.
  induction s as [|c s IH]; [done |].
  rewrite quote_escaped_cons, has_char_app, IH. cbn [has_char]. f_equal.
  unfold quote_escaped_char. destruct (Ascii.eqb c DQ) eqn:Hq.
  - apply Ascii.eqb_eq in Hq as ->. done.
  - cbn [has_char]. apply orb_false_r.
Qed.

Lemma descriptor_not_well_formed (s : string) :
  has_char "<" s = true → well_formed (descriptor_with (quote_escaped s)) = false.
Proof.
  intros Hlt. unfold well_formed, descriptor_with.
  rewrite <- (append_assoc _TEST_MODULE_HEADER body_prefix).
  rewrite run_app, run_header_prefix. cbn [mbind option_bind].
  rewrite run_app.
  destruct (run_in_value (quote_escaped s) in_package_name)
    as [-> | (st' & _ & _ & Hno)];
    [by left | apply quote_escaped_no_quote | done |].
  by rewrite quote_escaped_keeps_lt, Hlt in Hno.
Qed.

(** For every package name made of characters that XML allows,
    [write_test_module] writes one text to its stream: the descriptor in
    whose package-name option the name stands with its double quotes
    written as references and every other character as it is, the
    ampersand and the angle brackets included, because [_prettify]
    unescapes what [minidom] has escaped.  The marker comment, the option,
    the preparers and the launch test stand in it in their order; and
    when the name holds a less-than sign the text is not a well-formed
    XML document. *)
Theorem write_test_module_legal (package_name buf : string) :
  all_chars xml_char package_name = true →
  let value := quote_escaped package_name in
  write_test_module package_name stringio_write buf
  = Return () (buf +:+ descriptor_with value)
  ∧ in_order (ordered_parts value) (descriptor_with value)
  ∧ (has_char "<" package_name = true →
     well_formed (descriptor_with value) = false).
Proof.
  intros Hok value. split; [| split].
  - by rewrite write_test_module_eq, test_module_text_legal.
  - apply descriptor_in_order.
  - apply descriptor_not_well_formed.
Qed.

End Markup.

(** ** A directory in the place of a descriptor *)

Module BlockedSpec.
Import Py Os GenerateModule Generator.


End BlockedSpec.

Section CleanUpFails.
Import Py Os GenerateModule Generator CleanSpec BlockedSpec.

Variable scandir : dir → list string.
Hypothesis scandir_elem : ∀ (m : dir) x, x ∈ scandir m ↔ is_Some (m !! x).
Hypothesis scandir_NoDup : ∀ m : dir, NoDup (scandir m).







End CleanUpFails.

(** ** After a run that failed *)

Section FailedRun.
Import Py Os TextSpec Xml GenerateModule Generator CleanSpec GenerateSpec TestDescriptor.

Variable set_iter : gset string → list string.
Variable scandir : dir → list string.
Hypothesis set_iter_elem : ∀ X x, x ∈ set_iter X ↔ x ∈ X.
Hypothesis scandir_elem : ∀ (m : dir) x, x ∈ scandir m ↔ is_Some (m !! x).
Hypothesis scandir_NoDup : ∀ m : dir, NoDup (scandir m).

Lemma test_module_text_None (package_name : string) :
  test_module_text package_name = None
  ↔ all_chars xml_char package_name = false.
Proof.
  unfold test_module_text, _prettify, parse_tostring.
  rewrite values_ok_configuration.
  by destruct (all_chars xml_char package_name).
Qed.

Lemma package_dir_of_lookup (package_name test fname : string) :
  package_dir_of package_name test !! fname
  = if bool_decide (fname = _ANDROID_BP_FILE_NAME)
    then Some (File (build_module_text package_name))
    else if bool_decide (fname = _ANDROID_XML_FILE_NAME)
         then Some (File test) else None.
Proof.
  unfold package_dir_of. case_bool_decide as Hbp.
  - subst fname. apply lookup_insert_eq.
  - rewrite lookup_insert_ne by done. case_bool_decide as Hxml.
    + subst fname. apply lookup_singleton_eq.
    + by apply lookup_singleton_ne.
Qed.

Lemma descriptors_are_files_insert (p test : string) (r : dir) :
  descriptors_are_files r →
  descriptors_are_files (<[p := Dir (package_dir_of p test)]> r).
Proof.
  intros Hfiles d m fname m' Hd Hh Hfname.
  destruct (decide (d = p)) as [-> | Hne].
  - rewrite lookup_insert_eq in Hd. injection Hd as <-.
    rewrite package_dir_of_lookup. by repeat case_bool_decide.
  - rewrite lookup_insert_ne in Hd by done. by apply (Hfiles d m).
Qed.

Lemma descriptors_are_files_cleaned (root : dir) :
  descriptors_are_files root → descriptors_are_files (cleaned root).
Proof.
  intros Hfiles d m fname m' Hd Hh Hfname.
  unfold cleaned in Hd. rewrite map_lookup_imap in Hd.
  destruct (root !! d) as [[c|m0]|] eqn:Hroot; try done.
  cbn [mbind option_bind cleaned_entry] in Hd. rewrite Hh in Hd.
  case_bool_decide; [done |]. injection Hd as <-.
  rewrite without_generated_lookup. destruct (_ && _); [done |].
  rewrite without_generated_lookup. destruct (_ && _); [done |].
  by apply (Hfiles d m0).
Qed.

(** What a run that raised has left of a package survives the clean-up:
    the empty test descriptor holds no marker. *)
Lemma cleaned_entry_failed (package_name : string) :
  ∃ m, cleaned_entry package_name (Dir (package_dir_of package_name ""))
       = Some (Dir m).
Proof.
  cbn [cleaned_entry].
  set (m := if ishidden package_name then _ else _).
  exists m. rewrite bool_decide_eq_false_2; [done |].
  intros Hm.
  assert (Hx : m !! _ANDROID_XML_FILE_NAME = Some (File "")).
  { unfold m. destruct (ishidden package_name).
    - rewrite package_dir_of_lookup. by repeat case_bool_decide.
    - rewrite without_generated_other by done.
      rewrite without_generated_lookup.
      rewrite bool_decide_eq_true_2 by done. cbn [andb].
      unfold marked_at. rewrite !package_dir_of_lookup.
      by repeat case_bool_decide. }
  by rewrite Hm, lookup_empty in Hx.
Qed.

Lemma generate_module_files_not_component (p : string) (r : dir) :
  is_component p = false →
  ∃ e, _generate_module_files p r = Raise e r ∧ e ≠ ExpatError.
Proof.
  intros Hcomp. unfold _generate_module_files, _create_package_dir, join_root.
  unfold mbind, M_bind. rewrite Hcomp.
  destruct (String.eqb p "" || String.eqb p ".").
  - exists FileExistsError. done.
  - exists PathOutsideModel. done.
Qed.


(** The package at which a loop of generations raised [ExpatError]. *)
Lemma generate_loop_expat (pkgs : list string) (r r1 : dir) :
  (∀ p, p ∈ pkgs → strip p = p) → descriptors_are_files r →
  for_each pkgs (λ line, _generate_module_files (strip line)) r
  = Raise ExpatError r1 →
  ∃ name, name ∈ pkgs ∧ test_module_text name = None
          ∧ r1 !! name = Some (Dir (package_dir_of name ""))
          ∧ descriptors_are_files r1.
Proof.
  revert r. induction pkgs as [|p pkgs IH]; intros r Hstrip Hfiles; [done |].
  cbn [for_each]. rewrite (Hstrip p) by apply list_elem_of_here.
  destruct (is_component p) eqn:Hcomp.
  2: { destruct (generate_module_files_not_component p r Hcomp) as (e & He & Hne).
       rewrite (bind_Raise _ _ _ _ _ He). intros [= -> _]. done. }
  destruct (r !! p) as [n|] eqn:Hrp.
  { rewrite (bind_Raise _ _ r r FileExistsError); [done |].
    apply generate_module_files_exists; eauto. }
  unfold mbind at 1, M_bind at 1.
  rewrite (generate_module_files_eq _ _ Hcomp Hrp).
  destruct (test_module_text p) as [test|] eqn:Ht.
  - intros Hrun.
    destruct (IH (<[p := Dir (package_dir_of p test)]> r))
      as (name & Hin & Hnone & Hlook & Hfiles1); [| | done |].
    + intros q Hq. apply Hstrip. by apply list_elem_of_further.
    + by apply descriptors_are_files_insert.
    + exists name. split; [by apply list_elem_of_further | done].
  - intros [= <-]. exists p. split; [apply list_elem_of_here |].
    split; [done |]. split; [apply lookup_insert_eq |].
    by apply descriptors_are_files_insert.
Qed.

(** A loop of generations does not get past a package whose directory
    exists. *)
Lemma generate_loop_blocked (name : string) (pkgs : list string) (r : dir) :
  (∀ p, p ∈ pkgs → strip p = p) →
  (∀ p, p ∈ pkgs → is_component p = true) →
  name ∈ pkgs → is_Some (r !! name) →
  ∃ e r', for_each pkgs (λ line, _generate_module_files (strip line)) r
          = Raise e r'
          ∧ (e = FileExistsError
             ∨ (e = ExpatError ∧ ∃ p, p ∈ pkgs ∧ test_module_text p = None)).
Proof.
  revert r. induction pkgs as [|p pkgs IH]; intros r Hstrip Hcomp Hin Hname.
  { by apply elem_of_nil in Hin. }
  cbn [for_each]. rewrite (Hstrip p) by apply list_elem_of_here.
  assert (Hp : is_component p = true) by apply Hcomp, list_elem_of_here.
  destruct (r !! p) as [n|] eqn:Hrp.
  { exists FileExistsError, r. split; [| by left].
    apply bind_Raise, generate_module_files_exists; eauto. }
  unfold mbind at 1, M_bind at 1.
  rewrite (generate_module_files_eq _ _ Hp Hrp).
  destruct (test_module_text p) as [test|] eqn:Ht.
  - destruct (IH (<[p := Dir (package_dir_of p test)]> r))
      as (e & r' & Hrun & He).
    + intros q Hq. apply Hstrip. by apply list_elem_of_further.
    + intros q Hq. apply Hcomp. by apply list_elem_of_further.
    + apply elem_of_cons in Hin as [-> | Hin]; [| done].
      rewrite Hrp in Hname. by destruct Hname.
    + rewrite lookup_insert_ne; [done |]. intros <-.
      rewrite Hrp in Hname. by destruct Hname.
    + exists e, r'. split; [done |].
      destruct He as [-> | [-> (q & Hq & Hnone)]]; [by left | right].
      split; [done |]. exists q. split; [by apply list_elem_of_further | done].
  - eexists _, _. split; [reflexivity | right]. split; [done |].
    exists p. split; [apply list_elem_of_here | done].
Qed.


Lemma parse_package_list_stripped (text p : string) :
  p ∈ parse_package_list set_iter text → strip p = p.
Proof.
  intros Hp. apply (elem_of_parse_package_list set_iter set_iter_elem) in Hp
    as [(line & _ & ->) _].
  apply strip_idemp.
Qed.

(** A run that raises [ExpatError] has stopped at a package whose name
    holds a character that XML does not allow, and has left that
    package's directory behind, with its [Android.bp] and an empty
    [AndroidTest.xml].  The clean-up of a later run does not remove the
    directory, because the empty file holds no marker; so every later
    run whose list holds that name raises, with [FileExistsError] when it
    reaches the name, unless another package raises before. *)
Theorem failed_run_blocks (text : string) (root root1 : dir) :
  descriptors_are_files root →
  generate_all_modules_from_config set_iter scandir text root
  = Raise ExpatError root1 →
  ∃ name,
    name ∈ parse_package_list set_iter text
    ∧ all_chars xml_char name = false
    ∧ root1 !! name = Some (Dir (package_dir_of name ""))
    ∧ ∀ text',
        name ∈ parse_package_list set_iter text' →
        (∀ p, p ∈ parse_package_list set_iter text' → is_component p = true) →
        ∃ e r,
          generate_all_modules_from_config set_iter scandir text' root1
          = Raise e r
          ∧ (e = FileExistsError ∨ e = ExpatError).
Proof.
  intros Hfiles Hrun.
  destruct (remove_existing_package_files_eq scandir scandir_elem scandir_NoDup
              root Hfiles) as [Hclean _].
  unfold generate_all_modules_from_config in Hrun.
  rewrite (bind_Return _ _ _ _ _ Hclean) in Hrun.
  destruct (generate_loop_expat _ _ _ (parse_package_list_stripped text)
              (descriptors_are_files_cleaned root Hfiles) Hrun)
    as (name & Hin & Hnone & Hlook & Hfiles1).
  exists name. split; [done |]. split; [by apply test_module_text_None |].
  split; [done |]. intros text' Hin' Hcomp.
  destruct (remove_existing_package_files_eq scandir scandir_elem scandir_NoDup
              root1 Hfiles1) as [Hclean1 Hlook1].
  unfold generate_all_modules_from_config.
  rewrite (bind_Return _ _ _ _ _ Hclean1).
  destruct (generate_loop_blocked name (parse_package_list set_iter text')
              (cleaned root1)) as (e & r & Hrun' & He);
    [apply parse_package_list_stripped | done | done | |].
  { rewrite Hlook1, Hlook. cbn [mbind option_bind].
    destruct (cleaned_entry_failed name) as [m ->]. eauto. }
  exists e, r. split; [done |]. destruct He as [-> | [-> _]]; auto.
Qed.



End FailedRun.

Lemma Adb_names_its_device_witness :
  ∃ adb, TestUtils.Adb_init None None quiet_world = Return adb quiet_world
         ∧ ∀ args check w0,
             TestUtils.started
               (RepositorySpec.world_of
                  (TestUtils.Adb_run adb_not_installed adb args check w0))
             = (TestUtils.started w0
                  ++ [("adb" :: "-s" :: "emulator-5554" :: args,
                       TestUtils.environ w0)])%list.
Proof.
  apply (proj1 (Adb_names_its_device adb_not_installed None None quiet_world)
               "emulator-5554").
  - discriminate.
  - right. split; [left; reflexivity | reflexivity].
Defined.

Lemma Adb_list_packages_command_fails_witness :
  TestUtils.Adb_list_packages adb_not_installed adb_emulator quiet_world
  = Raise (CalledProcessError 1
             ["adb"; "-s"; "emulator-5554"; "shell"; "pm"; "list"; "packages"]
             "" "Failure [DELETE_FAILED_INTERNAL_ERROR]")
          (after_run quiet_world
             ["adb"; "-s"; "emulator-5554"; "shell"; "pm"; "list"; "packages"]
             ∅ ()).
Proof.
  apply (proj1 (Adb_list_packages_command_fails adb_not_installed adb_emulator
                  quiet_world ()));
    [reflexivity | discriminate].
Defined.

(** A host that holds one artifact. *)
Definition host_one_apk : dir :=
  {[ "tmp" := Dir {[ "app.apk" := File "apk" ]} ]}.

Lemma add_package_apks_failed_copy_witness :
  ∃ e repo' m,
    TestUtils.add_package_apks host_one_apk "pkg"
      [["tmp"; "app.apk"]; ["tmp"; "missing.apk"]] ∅
    = Raise e repo'
    ∧ repo' !! "pkg" = Some (Dir m)
    ∧ ∀ again, TestUtils.add_package_apks host_one_apk "pkg" again repo'
               = Raise FileExistsError repo'.
Proof.
  apply (add_package_apks_failed_copy host_one_apk "pkg"
           [["tmp"; "app.apk"]; ["tmp"; "missing.apk"]] ∅).
  - reflexivity.
  - apply lookup_empty.
  - exists ["tmp"; "missing.apk"]. split.
    + apply list_elem_of_further, list_elem_of_here.
    + intros c Hc. vm_compute in Hc. discriminate Hc.
Defined.

Lemma write_test_module_legal_witness :
  let value := TestDescriptor.quote_escaped "com.example.a<b" in
  Generator.write_test_module "com.example.a<b" Generator.stringio_write ""
  = Return () ("" +:+ TestDescriptor.descriptor_with value)
  ∧ TextSpec.in_order (TestDescriptor.ordered_parts value)
                      (TestDescriptor.descriptor_with value)
  ∧ XmlSpec.well_formed (TestDescriptor.descriptor_with value) = false.
Proof.
  pose proof (write_test_module_legal "com.example.a<b" "" eq_refl) as H.
  cbv zeta in H. destruct H as (Hrun & Horder & Hbad).
  split; [exact Hrun | split; [exact Horder | apply Hbad; reflexivity]].
Defined.


(** A package list whose only name holds a control character, and the
    root directory that a run with it on an empty root directory leaves. *)
Definition list_with_control_character : string :=
  "pkg" +:+ String (Py.chr 1) "" +:+ String Py.LF "".

Definition after_failed_run : dir :=
  RepositorySpec.world_of
    (Generator.generate_all_modules_from_config elements listing
       list_with_control_character ∅).

Lemma failed_run_blocks_witness :
  ∃ name,
    name ∈ Generator.parse_package_list elements list_with_control_character
    ∧ Xml.all_chars Xml.xml_char name = false
    ∧ after_failed_run !! name = Some (Dir (GenerateSpec.package_dir_of name ""))
    ∧ ∀ text',
        name ∈ Generator.parse_package_list elements text' →
        (∀ p, p ∈ Generator.parse_package_list elements text' →
              Os.is_component p = true) →
        ∃ e r,
          Generator.generate_all_modules_from_config elements listing text'
            after_failed_run
          = Raise e r
          ∧ (e = FileExistsError ∨ e = ExpatError).
Proof.
  apply (failed_run_blocks elements listing elements_elem
           listing_elem listing_NoDup list_with_control_character ∅
           after_failed_run).
  - exact descriptors_are_files_empty.
  - vm_compute. reflexivity.
Defined.


